(** * EstoqueDigital: storage layer and request handlers

    A shallow embedding of the inventory/requisition tracker of
    EstoqueDigital.  The storage contract is [IStorage]
    (src/server/storage.ts); the model follows [InMemoryStorage], the
    map-based implementation in the same file, whose logic
    [DatabaseStorage] repeats query by query.

    Conventions of the embedding:
    - every [Map<string, T>] of [InMemoryStorage] is a [gmap string T];
    - [randomUUID()] is an explicit argument (the fresh identifier the
      call receives) and [this.now()] is an explicit timestamp [now : Z]
      (milliseconds, as [Date.getTime] returns them), one per call;
    - [Date | null] is [option Z], [string | null] is [option string];
    - JavaScript numbers used as integers (zod [integer()] columns) are Z. *)

From stdpp Require Import base gmap strings list fin_maps sorting.
From Stdlib Require Import ZArith Lia.

Open Scope Z_scope.

(** ** Enumerations of src/shared/schema.ts *)

(** [movementTypeEnum]: ENTRADA (inbound), SAIDA (outbound), AJUSTE (adjustment). *)
Inductive movement_type := ENTRADA | SAIDA | AJUSTE.

(** [requisitionStatusEnum]: PENDENTE (pending), ASSINADA (signed), CANCELADA. *)
Inductive requisition_status := PENDENTE | ASSINADA | CANCELADA.

(** [userRoleEnum]. *)
Inductive user_role := ADMIN | ESTOQUE | FUNCIONARIO.

#[global] Instance requisition_status_eq_dec : EqDecision requisition_status.
Proof. solve_decision. Defined.

#[global] Instance movement_type_eq_dec : EqDecision movement_type.
Proof. solve_decision. Defined.

#[global] Instance user_role_eq_dec : EqDecision user_role.
Proof. solve_decision. Defined.

(** ** Row types ([typeof table.$inferSelect]) and insert types *)

Module Material.
(** A row of [materials]. *)
Record t := mk {
  id : string;
  name : string;
  code : string;
  unit : string;
  unitPrice : option string;
  minimumStock : Z;
  currentStock : Z;
  createdAt : option Z;
  updatedAt : option Z;
}.
End Material.

Module InsertMaterial.
(** [insertMaterialSchema] omits [id], [createdAt], [updatedAt] and
    [currentStock] (schema.ts:160); [unitPrice] and [minimumStock] are
    optional in the insert type. *)
Record t := mk {
  name : string;
  code : string;
  unit : string;
  unitPrice : option string;
  minimumStock : option Z;
}.
End InsertMaterial.

Module StockMovement.
(** A row of [stock_movements]. *)
Record t := mk {
  id : string;
  materialId : string;
  type : movement_type;
  quantity : Z;
  unitPrice : option string;
  observation : option string;
  userId : string;
  requisitionId : option string;
  createdAt : option Z;
}.
End StockMovement.

Module InsertStockMovement.
(** [insertStockMovementSchema] omits [id] and [createdAt]. *)
Record t := mk {
  materialId : string;
  type : movement_type;
  quantity : Z;
  unitPrice : option string;
  observation : option string;
  userId : string;
  requisitionId : option string;
}.
End InsertStockMovement.

Module Requisition.
(** A row of [requisitions]. *)
Record t := mk {
  id : string;
  employeeId : string;
  materialId : string;
  quantity : Z;
  observation : option string;
  status : requisition_status;
  createdById : string;
  signedAt : option Z;
  signedByDevice : option string;
  signedByIp : option string;
  createdAt : option Z;
  updatedAt : option Z;
}.
End Requisition.

Module InsertRequisition.
(** [insertRequisitionSchema] omits [id], the timestamps and the signing
    metadata, but keeps [status] (optional, defaulting to PENDENTE). *)
Record t := mk {
  employeeId : string;
  materialId : string;
  quantity : Z;
  observation : option string;
  status : option requisition_status;
  createdById : string;
}.
End InsertRequisition.

Module PartialRequisition.
(** [Partial<InsertRequisition>]: every key may be absent ([None]). *)
Record t := mk {
  employeeId : option string;
  materialId : option string;
  quantity : option Z;
  observation : option (option string);
  status : option requisition_status;
  createdById : option string;
}.
End PartialRequisition.

(** ** The in-memory store *)

(** The private maps of [InMemoryStorage] that the material, movement and
    requisition operations touch. *)
Record Store := mkStore {
  materials : gmap string Material.t;
  stockMovements : gmap string StockMovement.t;
  requisitions : gmap string Requisition.t;
}.

Definition set_materials (m : gmap string Material.t) (s : Store) : Store :=
  mkStore m (stockMovements s) (requisitions s).
Definition set_stockMovements (m : gmap string StockMovement.t) (s : Store) : Store :=
  mkStore (materials s) m (requisitions s).
Definition set_requisitions (m : gmap string Requisition.t) (s : Store) : Store :=
  mkStore (materials s) (stockMovements s) m.

(** ** Material operations *)

(** [getMaterial(id)] (a copy of the stored record, or undefined). *)
Definition getMaterial (id : string) (s : Store) : option Material.t :=
  materials s !! id.

(** [createMaterial(material)]: [newId] is the value of [randomUUID()]. *)
Definition createMaterial (newId : string) (now : Z) (material : InsertMaterial.t)
    (s : Store) : Material.t * Store :=
  let record := {|
    Material.id := newId;
    Material.name := InsertMaterial.name material;
    Material.code := InsertMaterial.code material;
    Material.unit := InsertMaterial.unit material;
    Material.unitPrice := InsertMaterial.unitPrice material;
    Material.minimumStock := default 0 (InsertMaterial.minimumStock material);
    Material.currentStock := 0;
    Material.createdAt := Some now;
    Material.updatedAt := Some now |} in
  (record, set_materials (<[Material.id record := record]> (materials s)) s).

(** [updateMaterialStock(materialId, newStock)]: a no-op on a missing id. *)
Definition updateMaterialStock (materialId : string) (newStock : Z) (now : Z)
    (s : Store) : Store :=
  match materials s !! materialId with
  | None => s
  | Some existing =>
      let updated := {|
        Material.id := Material.id existing;
        Material.name := Material.name existing;
        Material.code := Material.code existing;
        Material.unit := Material.unit existing;
        Material.unitPrice := Material.unitPrice existing;
        Material.minimumStock := Material.minimumStock existing;
        Material.currentStock := newStock;
        Material.createdAt := Material.createdAt existing;
        Material.updatedAt := Some now |} in
      set_materials (<[materialId := updated]> (materials s)) s
  end.

(** ** Stock movement operations *)

(** The [if (type === ENTRADA || type === AJUSTE) ... else if (type === SAIDA)]
    update of [newStock] inside [createStockMovement]. *)
Definition apply_type (ty : movement_type) (quantity stock : Z) : Z :=
  match ty with
  | ENTRADA | AJUSTE => stock + quantity
  | SAIDA => stock - quantity
  end.

(** [createStockMovement(movement)]: persist the record, then recompute the
    stock of the material if it exists, clamped with [Math.max(0, _)]. *)
Definition createStockMovement (newId : string) (now : Z)
    (movement : InsertStockMovement.t) (s : Store) : StockMovement.t * Store :=
  let record := {|
    StockMovement.id := newId;
    StockMovement.materialId := InsertStockMovement.materialId movement;
    StockMovement.type := InsertStockMovement.type movement;
    StockMovement.quantity := InsertStockMovement.quantity movement;
    StockMovement.unitPrice := InsertStockMovement.unitPrice movement;
    StockMovement.observation := InsertStockMovement.observation movement;
    StockMovement.userId := InsertStockMovement.userId movement;
    StockMovement.requisitionId := InsertStockMovement.requisitionId movement;
    StockMovement.createdAt := Some now |} in
  let s1 := set_stockMovements (<[StockMovement.id record := record]> (stockMovements s)) s in
  let s2 :=
    match getMaterial (InsertStockMovement.materialId movement) s1 with
    | Some material =>
        let newStock := apply_type (InsertStockMovement.type movement)
                          (InsertStockMovement.quantity movement)
                          (Material.currentStock material) in
        updateMaterialStock (InsertStockMovement.materialId movement)
          (Z.max 0 newStock) now s1
    | None => s1
    end in
  (record, s2).

(** ** Requisition operations *)

(** The errors thrown by the requisition operations.  [signRequisition]
    attaches an HTTP [status] to each ([(error as any).status = ...]);
    [updateRequisition] throws a plain [Error] without one. *)
Inductive StorageError :=
  | NotFound            (* "Requisition not found", status 404 *)
  | Forbidden           (* "Unauthorized to sign this requisition", status 403 *)
  | AlreadySigned       (* "Requisition already signed", status 400 *)
  | PlainNotFound.      (* "Requisition not found", no status *)

(** The [status] property of the thrown error, [None] when it has none. *)
Definition error_status (e : StorageError) : option Z :=
  match e with
  | NotFound => Some 404
  | Forbidden => Some 403
  | AlreadySigned => Some 400
  | PlainNotFound => None
  end.

Definition error_message (e : StorageError) : string :=
  match e with
  | NotFound | PlainNotFound => "Requisition not found"
  | Forbidden => "Unauthorized to sign this requisition"
  | AlreadySigned => "Requisition already signed"
  end.

(** [createRequisition(requisition)]: [newId] is the value of [randomUUID()]. *)
Definition createRequisition (newId : string) (now : Z)
    (requisition : InsertRequisition.t) (s : Store) : Requisition.t * Store :=
  let record := {|
    Requisition.id := newId;
    Requisition.employeeId := InsertRequisition.employeeId requisition;
    Requisition.materialId := InsertRequisition.materialId requisition;
    Requisition.quantity := InsertRequisition.quantity requisition;
    Requisition.observation := InsertRequisition.observation requisition;
    Requisition.status := default PENDENTE (InsertRequisition.status requisition);
    Requisition.createdById := InsertRequisition.createdById requisition;
    Requisition.signedAt := None;
    Requisition.signedByDevice := None;
    Requisition.signedByIp := None;
    Requisition.createdAt := Some now;
    Requisition.updatedAt := Some now |} in
  (record, set_requisitions (<[Requisition.id record := record]> (requisitions s)) s).

(** [{ ...existing, ...requisition, updatedAt: now }]: the keys present in
    the partial input override those of the stored record. *)
Definition merge_requisition (existing : Requisition.t)
    (p : PartialRequisition.t) (now : Z) : Requisition.t := {|
  Requisition.id := Requisition.id existing;
  Requisition.employeeId := default (Requisition.employeeId existing) (PartialRequisition.employeeId p);
  Requisition.materialId := default (Requisition.materialId existing) (PartialRequisition.materialId p);
  Requisition.quantity := default (Requisition.quantity existing) (PartialRequisition.quantity p);
  Requisition.observation := default (Requisition.observation existing) (PartialRequisition.observation p);
  Requisition.status := default (Requisition.status existing) (PartialRequisition.status p);
  Requisition.createdById := default (Requisition.createdById existing) (PartialRequisition.createdById p);
  Requisition.signedAt := Requisition.signedAt existing;
  Requisition.signedByDevice := Requisition.signedByDevice existing;
  Requisition.signedByIp := Requisition.signedByIp existing;
  Requisition.createdAt := Requisition.createdAt existing;
  Requisition.updatedAt := Some now |}.

(** [updateRequisition(id, requisition)]. *)
Definition updateRequisition (id : string) (now : Z) (p : PartialRequisition.t)
    (s : Store) : (StorageError + Requisition.t) * Store :=
  match requisitions s !! id with
  | None => (inl PlainNotFound, s)
  | Some existing =>
      let updated := merge_requisition existing p now in
      (inr updated, set_requisitions (<[id := updated]> (requisitions s)) s)
  end.

(** JavaScript truthiness of an optional string: [undefined] and [""] are falsy. *)
Definition truthy (o : option string) : bool :=
  match o with
  | None => false
  | Some v => negb (String.eqb v "")
  end.

(** The guard [signerId && requisition.employeeId !== signerId]. *)
Definition signer_mismatch (signerId : option string) (employeeId : string) : bool :=
  match signerId with
  | Some sid => truthy signerId && negb (String.eqb employeeId sid)
  | None => false
  end.

Definition label_signed : string := "Requisição assinada".

(** [requisition.observation ? `Requisição assinada - ${obs}` : 'Requisição assinada']. *)
Definition observationText (observation : option string) : string :=
  match observation with
  | Some o => if truthy observation then label_signed +:+ " - " +:+ o else label_signed
  | None => label_signed
  end.

(** [signRequisition(id, signedByDevice?, signedByIp?, signerId?)];
    [movementId] is the [randomUUID()] of the nested [createStockMovement]. *)
Definition signRequisition (id : string) (signedByDevice signedByIp signerId : option string)
    (now : Z) (movementId : string) (s : Store) : (StorageError + Requisition.t) * Store :=
  match requisitions s !! id with
  | None => (inl NotFound, s)
  | Some requisition =>
      if signer_mismatch signerId (Requisition.employeeId requisition) then (inl Forbidden, s)
      else if decide (Requisition.status requisition = ASSINADA) then (inl AlreadySigned, s)
      else
        let updated := {|
          Requisition.id := Requisition.id requisition;
          Requisition.employeeId := Requisition.employeeId requisition;
          Requisition.materialId := Requisition.materialId requisition;
          Requisition.quantity := Requisition.quantity requisition;
          Requisition.observation := Requisition.observation requisition;
          Requisition.status := ASSINADA;
          Requisition.createdById := Requisition.createdById requisition;
          Requisition.signedAt := Some now;
          Requisition.signedByDevice := signedByDevice;
          Requisition.signedByIp := signedByIp;
          Requisition.createdAt := Requisition.createdAt requisition;
          Requisition.updatedAt := Some now |} in
        let s1 := set_requisitions (<[id := updated]> (requisitions s)) s in
        let movement := {|
          InsertStockMovement.materialId := Requisition.materialId requisition;
          InsertStockMovement.type := SAIDA;
          InsertStockMovement.quantity := Requisition.quantity requisition;
          InsertStockMovement.unitPrice := None;
          InsertStockMovement.observation := Some (observationText (Requisition.observation requisition));
          InsertStockMovement.userId := Requisition.employeeId requisition;
          InsertStockMovement.requisitionId := Some id |} in
        let '(_, s2) := createStockMovement movementId now movement s1 in
        (inr updated, s2)
  end.

(** ** JSON response bodies *)

#[local] Set Warnings "-register-all".

(** The values [res.json(...)] serialises; [JDate] is a [Date] field. *)
Inductive json :=
  | JNull
  | JBool (b : bool)
  | JNum (z : Z)
  | JStr (v : string)
  | JDate (t : Z)
  | JArr (l : list json)
  | JObj (fields : list (string * json)).

(** Whether key [k] occurs in some object anywhere inside [j]. *)
Fixpoint has_key (k : string) (j : json) : bool :=
  match j with
  | JArr l =>
      (fix go (l : list json) : bool :=
         match l with [] => false | x :: r => has_key k x || go r end) l
  | JObj fs =>
      (fix go (fs : list (string * json)) : bool :=
         match fs with
         | [] => false
         | (k', v) :: r => String.eqb k' k || has_key k v || go r
         end) fs
  | _ => false
  end.

Definition jopt_str (o : option string) : json :=
  match o with Some v => JStr v | None => JNull end.
Definition jopt_date (o : option Z) : json :=
  match o with Some t => JDate t | None => JNull end.

Definition message_body (msg : string) : json := JObj [("message", JStr msg)].

(** ** The admin sign endpoint [POST /api/requisitions/:id/sign] *)

(** What the handler passes to [res.json]: the signed requisition or a
    [{ message }] object. *)
Inductive SignBody :=
  | BodyRequisition (r : Requisition.t)
  | BodyMessage (msg : string).

Record SignResponse := mkSignResponse { sr_status : Z; sr_body : SignBody }.

(** The handler of src/server/routes.ts:205-229: every error thrown in the
    [try] block answers 500.  The audit-log append that follows a
    successful signature never throws in [InMemoryStorage] and touches
    none of the maps of [Store], so it is left out. *)
Definition admin_sign_routes_ts (id : string) (userAgent ip : option string)
    (now : Z) (movementId : string) (s : Store) : SignResponse * Store :=
  match signRequisition id userAgent ip None now movementId s with
  | (inr requisition, s') => (mkSignResponse 200 (BodyRequisition requisition), s')
  | (inl _, s') => (mkSignResponse 500 (BodyMessage "Failed to sign requisition"), s')
  end.

(** The handler of the same route in src/unnamed/part_000:404-434: an
    error with a truthy [status] answers that status with its message
    ([error.message || "Failed to sign requisition"]); others answer 500. *)
Definition admin_sign_part_000 (id : string) (userAgent ip : option string)
    (now : Z) (movementId : string) (s : Store) : SignResponse * Store :=
  match signRequisition id userAgent ip None now movementId s with
  | (inr requisition, s') => (mkSignResponse 200 (BodyRequisition requisition), s')
  | (inl e, s') =>
      match error_status e with
      | Some st =>
          if Z.eqb st 0 then (mkSignResponse 500 (BodyMessage "Failed to sign requisition"), s')
          else (mkSignResponse st (BodyMessage (error_message e)), s')
      | None => (mkSignResponse 500 (BodyMessage "Failed to sign requisition"), s')
      end
  end.

(** ** Employee self-service routes (src/unnamed/part_000) *)

Module User.
(** A row of [users], with the [password_hash] column that
    [ensureDatabaseSchema] and [InMemoryStorage.upsertUser] carry. *)
Record t := mk {
  id : string;
  email : option string;
  firstName : option string;
  lastName : option string;
  profileImageUrl : option string;
  passwordHash : option string;
  role : user_role;
  createdAt : option Z;
  updatedAt : option Z;
}.
End User.

Module EmployeeRoutes.

(** [InMemoryStorage.users], a [Map] kept as an association list in
    insertion order ([Map.set] replaces an existing key in place). *)
Definition Users := list (string * User.t).

Fixpoint map_set (k : string) (v : User.t) (m : Users) : Users :=
  match m with
  | [] => [(k, v)]
  | (k', v') :: r => if String.eqb k' k then (k, v) :: r else (k', v') :: map_set k v r
  end.

Fixpoint map_get (k : string) (m : Users) : option User.t :=
  match m with
  | [] => None
  | (k', v) :: r => if String.eqb k' k then Some v else map_get k r
  end.

(** [String.prototype.toLowerCase] on the ASCII letters. *)
Definition lower_ascii (c : Ascii.ascii) : Ascii.ascii :=
  let n := Ascii.nat_of_ascii c in
  if (65 <=? n)%nat && (n <=? 90)%nat then Ascii.ascii_of_nat (n + 32) else c.

Fixpoint toLowerCase (v : string) : string :=
  match v with
  | EmptyString => EmptyString
  | String c r => String (lower_ascii c) (toLowerCase r)
  end.

(** The ASCII members of the regular-expression class [\s]. *)
Definition is_space (c : Ascii.ascii) : bool :=
  let n := Ascii.nat_of_ascii c in
  (n =? 32)%nat || (9 <=? n)%nat && (n <=? 13)%nat.

Fixpoint trim_start (v : string) : string :=
  match v with
  | String c r => if is_space c then trim_start r else v
  | EmptyString => EmptyString
  end.

Fixpoint str_rev (v : string) : string :=
  match v with
  | EmptyString => EmptyString
  | String c r => str_rev r +:+ String c EmptyString
  end.

Definition trim (v : string) : string :=
  str_rev (trim_start (str_rev (trim_start v))).

(** [v.split(/\s+/)] on a trimmed string: the maximal runs of non-space
    characters, or [[""]] for the empty string. *)
Fixpoint split_words_acc (v : string) (cur : string) : list string :=
  match v with
  | EmptyString => if String.eqb cur "" then [] else [cur]
  | String c r =>
      if is_space c then
        (if String.eqb cur "" then [] else [cur]) ++ split_words_acc r ""
      else split_words_acc r (cur +:+ String c EmptyString)
  end.

Definition split_ws (v : string) : list string :=
  match split_words_acc v "" with [] => [""] | ws => ws end.

Fixpoint join_space (ws : list string) : string :=
  match ws with
  | [] => ""
  | [w] => w
  | w :: r => w +:+ " " +:+ join_space r
  end.

(** [str.split(":")]. *)
Fixpoint split_colon_acc (v : string) (cur : string) : list string :=
  match v with
  | EmptyString => [cur]
  | String c r =>
      if Ascii.eqb c (Ascii.ascii_of_nat 58) then cur :: split_colon_acc r ""
      else split_colon_acc r (cur +:+ String c EmptyString)
  end.

Definition opt_truthy (o : option string) : bool :=
  match o with Some v => negb (String.eqb v "") | None => false end.

(** [a || b] on strings. *)
Definition str_or (a b : string) : string := if String.eqb a "" then b else a.

Section Handlers.
(** [scrypt(password, salt, 64)] rendered as a hex string. *)
Variable scrypt_hex : string -> string -> string.
(** zod's [string().email()] check. *)
Variable isEmail : string -> bool.

(** [hashPassword]: [salt] is [randomBytes(16).toString("hex")]. *)
Definition hashPassword (salt password : string) : string :=
  salt +:+ ":" +:+ scrypt_hex password salt.

(** [verifyPassword]: the length check and [timingSafeEqual] compare the
    stored key with the re-derived one. *)
Definition verifyPassword (password storedHash : string) : bool :=
  let parts := split_colon_acc storedHash "" in
  let salt := default "" (parts !! 0%nat) in
  let key := default "" (parts !! 1%nat) in
  if String.eqb salt "" || String.eqb key "" then false
  else String.eqb key (scrypt_hex password salt).

(** [getUser(id)]. *)
Definition getUser (id : string) (users : Users) : option User.t := map_get id users.

(** [getUserByEmail(email)]: the first user, in insertion order, whose
    lower-cased email equals the lower-cased argument. *)
Definition getUserByEmail (email : string) (users : Users) : option User.t :=
  let normalized := toLowerCase email in
  fmap snd (List.find (fun kv => match User.email (snd kv) with
                              | Some e => String.eqb (toLowerCase e) normalized
                              | None => false end) users).

(** [upsertUser(userData)] with every field of [userData] supplied. *)
Definition upsertUser (id : string) (email : option string)
    (firstName lastName : option string) (passwordHash : option string)
    (role : user_role) (now : Z) (users : Users) : User.t * Users :=
  let existing := map_get id users in
  let user := {|
    User.id := id;
    User.email := match email with
                  | Some e => Some (toLowerCase e)
                  | None => mbind User.email existing end;
    User.firstName := match firstName with Some f => Some f | None => mbind User.firstName existing end;
    User.lastName := match lastName with Some l => Some l | None => mbind User.lastName existing end;
    User.profileImageUrl := mbind User.profileImageUrl existing;
    User.passwordHash := match passwordHash with Some h => Some h | None => mbind User.passwordHash existing end;
    User.role := role;
    User.createdAt := match mbind User.createdAt existing with Some t => Some t | None => Some now end;
    User.updatedAt := Some now |} in
  (user, map_set id user users).

(** [createEmployeeUser({ name, email, passwordHash })]; [newId] is the
    value of [randomUUID()]. *)
Definition createEmployeeUser (newId name email passwordHash : string) (now : Z)
    (users : Users) : User.t * Users :=
  let trimmedName := trim name in
  let ws := split_ws trimmedName in
  let firstName := default "" (head ws) in
  let rest := tail ws in
  let lastName := match rest with [] => None | _ => Some (join_space rest) end in
  upsertUser newId (Some (toLowerCase email)) (Some (str_or firstName trimmedName))
    lastName (Some passwordHash) FUNCIONARIO now users.

(** The object a [User] row serialises to. *)
Definition user_fields (u : User.t) : list (string * json) :=
  [("id", JStr (User.id u));
   ("email", jopt_str (User.email u));
   ("firstName", jopt_str (User.firstName u));
   ("lastName", jopt_str (User.lastName u));
   ("profileImageUrl", jopt_str (User.profileImageUrl u));
   ("passwordHash", jopt_str (User.passwordHash u));
   ("role", JStr match User.role u with
                 | ADMIN => "ADMIN" | ESTOQUE => "ESTOQUE" | FUNCIONARIO => "FUNCIONARIO" end);
   ("createdAt", jopt_date (User.createdAt u));
   ("updatedAt", jopt_date (User.updatedAt u))].

(** [sanitizeUser(user)]: [const { passwordHash: _password, ...rest } = user]. *)
Definition sanitizeUser (u : User.t) : json :=
  JObj (List.filter (fun kv => negb (String.eqb (fst kv) "passwordHash")) (user_fields u)).

Record Response := mkResponse { status : Z; body : json }.

(** A zod issue: its message and the path of the offending key. *)
Definition issue (path msg : string) : json :=
  JObj [("message", JStr msg); ("path", JArr [JStr path])].

(** A string field of a zod object schema: [Required] when absent, the
    schema's own message when [ok] refuses it. *)
Definition check_field (path : string) (v : option string) (ok : string -> bool)
    (msg : string) : list json :=
  match v with
  | None => [issue path "Required"]
  | Some x => if ok x then [] else [issue path msg]
  end.

Definition invalid_data (issues : list json) : Response :=
  mkResponse 400 (JObj [("message", JStr "Dados inválidos"); ("errors", JArr issues)]).

(** The request body of [POST /api/employee/register]. *)
Record RegisterBody := mkRegisterBody {
  rb_name : option string; rb_email : option string; rb_password : option string }.

(** [employeeRegistrationSchema.parse(req.body)]. *)
Definition registration_issues (b : RegisterBody) : list json :=
  check_field "name" (rb_name b) (fun x => (1 <=? String.length x)%nat) "Nome é obrigatório" ++
  check_field "email" (rb_email b) isEmail "E-mail inválido" ++
  check_field "password" (rb_password b) (fun x => (6 <=? String.length x)%nat)
    "Senha deve conter pelo menos 6 caracteres".

(** [POST /api/employee/register]; [salt] and [newId] are the random
    values the call draws. *)
Definition register (b : RegisterBody) (salt newId : string) (now : Z)
    (users : Users) : Response * Users :=
  match registration_issues b, rb_name b, rb_email b, rb_password b with
  | [], Some name, Some email, Some password =>
      match getUserByEmail email users with
      | Some _ => (mkResponse 400 (message_body "E-mail já cadastrado"), users)
      | None =>
          let passwordHash := hashPassword salt password in
          let '(user, users') := createEmployeeUser newId name email passwordHash now users in
          (mkResponse 201 (sanitizeUser user), users')
      end
  | issues, _, _, _ => (invalid_data issues, users)
  end.

(** The request body of [POST /api/employee/login]. *)
Record LoginBody := mkLoginBody { lb_email : option string; lb_password : option string }.

Definition login_issues (b : LoginBody) : list json :=
  check_field "email" (lb_email b) isEmail "E-mail inválido" ++
  check_field "password" (lb_password b) (fun x => (1 <=? String.length x)%nat)
    "Senha é obrigatória".

(** [POST /api/employee/login]; the session is [req.session.employeeUserId]. *)
Definition login (b : LoginBody) (session : option string) (users : Users)
    : Response * option string :=
  match login_issues b, lb_email b, lb_password b with
  | [], Some email, Some password =>
      match getUserByEmail email users with
      | Some user =>
          if bool_decide (User.role user = FUNCIONARIO) && opt_truthy (User.passwordHash user) then
            if verifyPassword password (default "" (User.passwordHash user)) then
              (mkResponse 200 (sanitizeUser user), Some (User.id user))
            else (mkResponse 401 (message_body "Credenciais inválidas"), session)
          else (mkResponse 401 (message_body "Credenciais inválidas"), session)
      | None => (mkResponse 401 (message_body "Credenciais inválidas"), session)
      end
  | issues, _, _ => (invalid_data issues, session)
  end.

(** [GET /api/employee/me]. *)
Definition me (session : option string) (users : Users) : Response * option string :=
  match session with
  | Some employeeId =>
      if String.eqb employeeId "" then (mkResponse 401 (message_body "Não autenticado"), session)
      else
        match getUser employeeId users with
        | Some user =>
            if decide (User.role user = FUNCIONARIO) then (mkResponse 200 (sanitizeUser user), session)
            else (mkResponse 403 (message_body "Acesso restrito a funcionários"), None)
        | None => (mkResponse 403 (message_body "Acesso restrito a funcionários"), None)
        end
  | None => (mkResponse 401 (message_body "Não autenticado"), session)
  end.
End Handlers.
End EmployeeRoutes.

(** ** Sequences of operations *)

(** A sequence of [createStockMovement] calls, each with its fresh
    identifier and timestamp. *)
Fixpoint applyMovements (ms : list (string * Z * InsertStockMovement.t)) (s : Store) : Store :=
  match ms with
  | [] => s
  | (newId, now, mv) :: rest => applyMovements rest (snd (createStockMovement newId now mv s))
  end.

(** The signed delta of a movement as the spec words it: [+quantity] for
    INBOUND/ADJUSTMENT, [-quantity] for OUTBOUND. *)
Definition spec_signed_delta (mv : InsertStockMovement.t) : Z :=
  match InsertStockMovement.type mv with
  | ENTRADA | AJUSTE => InsertStockMovement.quantity mv
  | SAIDA => - InsertStockMovement.quantity mv
  end.

(** The spec's [sum of signed deltas] over a sequence. *)
Definition spec_sum_deltas (ms : list (string * Z * InsertStockMovement.t)) : Z :=
  fold_right (fun x acc => spec_signed_delta (snd x) + acc) 0 ms.

(** The stock reached by clamping at zero after every movement. *)
Definition clamped_stock (init : Z) (ms : list (string * Z * InsertStockMovement.t)) : Z :=
  fold_left (fun st x => Z.max 0 (st + spec_signed_delta (snd x))) ms init.

(** The requisition operations of [IStorage] that write [requisitions]. *)
Inductive ReqOp :=
  | OpCreate (newId : string) (now : Z) (input : InsertRequisition.t)
  | OpUpdate (id : string) (now : Z) (patch : PartialRequisition.t)
  | OpSign (id : string) (signedByDevice signedByIp signerId : option string)
           (now : Z) (movementId : string).

Definition stepReq (op : ReqOp) (s : Store) : Store :=
  match op with
  | OpCreate newId now input => snd (createRequisition newId now input s)
  | OpUpdate id now patch => snd (updateRequisition id now patch s)
  | OpSign id dev ip signer now movementId => snd (signRequisition id dev ip signer now movementId s)
  end.

Definition runReq (ops : list ReqOp) (s : Store) : Store :=
  fold_left (fun st op => stepReq op st) ops s.

(** The operations that leave the status of requisition [id] alone when it
    is signed: creations under another identifier, signatures, and updates
    of another requisition or whose input carries no status other than
    ASSINADA. *)
Definition keeps_signed (id : string) (op : ReqOp) : Prop :=
  match op with
  | OpCreate newId _ _ => newId <> id
  | OpUpdate id' _ patch =>
      id' <> id \/ PartialRequisition.status patch = None
      \/ PartialRequisition.status patch = Some ASSINADA
  | OpSign _ _ _ _ _ _ => True
  end.

(** ** Sample data *)

Definition empty_store : Store := mkStore ∅ ∅ ∅.

Definition bolt_input : InsertMaterial.t := InsertMaterial.mk "Bolt" "B-1" "un" None (Some 10).

Definition movement_of (ty : movement_type) (q : Z) : InsertStockMovement.t :=
  InsertStockMovement.mk "m1" ty q None None "u1" None.

Definition bolt_store : Store := snd (createMaterial "m1" 0 bolt_input empty_store).

Definition requisition_of (st : requisition_status) : Requisition.t :=
  Requisition.mk "r1" "alice" "m1" 5 None st "admin" None None None (Some 0) (Some 0).

Definition store_with (r : Requisition.t) : Store :=
  set_requisitions {[ Requisition.id r := r ]} bolt_store.

(** Bolt after an INBOUND movement of 15. *)
Definition bolt_store_15 : Store :=
  snd (createStockMovement "x1" 1 (movement_of ENTRADA 15) bolt_store).

Definition bolt_15 : Material.t :=
  Material.mk "m1" "Bolt" "B-1" "un" None 10 15 (Some 0) (Some 1).

(** An OUTBOUND movement followed by an INBOUND one of the same quantity. *)
Definition out_then_in : list (string * Z * InsertStockMovement.t) :=
  [("x1", 1, movement_of SAIDA 5); ("x2", 2, movement_of ENTRADA 5)].

(** ** Further storage operations of [InMemoryStorage] *)

(** The error [updateMaterial] throws on a missing id ("Material not found"). *)
Inductive MaterialError := MaterialNotFound.

Module PartialMaterial.
(** [Partial<InsertMaterial>]: every key may be absent ([None]);
    [unitPrice] is nullable. *)
Record t := mk {
  name : option string;
  code : option string;
  unit : option string;
  unitPrice : option (option string);
  minimumStock : option Z;
}.
End PartialMaterial.

(** [updateMaterial(id, material)]: [{ ...existing, ...material, updatedAt }]. *)
Definition updateMaterial (id : string) (now : Z) (p : PartialMaterial.t) (s : Store)
    : (MaterialError + Material.t) * Store :=
  match materials s !! id with
  | None => (inl MaterialNotFound, s)
  | Some existing =>
      let updated := {|
        Material.id := Material.id existing;
        Material.name := default (Material.name existing) (PartialMaterial.name p);
        Material.code := default (Material.code existing) (PartialMaterial.code p);
        Material.unit := default (Material.unit existing) (PartialMaterial.unit p);
        Material.unitPrice := default (Material.unitPrice existing) (PartialMaterial.unitPrice p);
        Material.minimumStock := default (Material.minimumStock existing) (PartialMaterial.minimumStock p);
        Material.currentStock := Material.currentStock existing;
        Material.createdAt := Material.createdAt existing;
        Material.updatedAt := Some now |} in
      (inr updated, set_materials (<[id := updated]> (materials s)) s)
  end.

(** [deleteMaterial(id)]: no check on movements or requisitions that name it. *)
Definition deleteMaterial (id : string) (s : Store) : Store :=
  set_materials (delete id (materials s)) s.

(** [toTimestamp(value)]: [value.getTime()], or 0 for a missing date. *)
Definition toTimestamp (value : option Z) : Z := default 0 value.

(** The order [Array.prototype.sort] produces with the comparator
    [(a, b) => toTimestamp(b.createdAt) - toTimestamp(a.createdAt)]: [x] may
    stay before [y] when the comparator is not positive, i.e. when [y] is not
    newer than [x].  The sort is stable (ES2019), as stdpp's [merge_sort] is. *)
Definition newest_first {A} (ts : A -> Z) : relation A := fun x y => ts y <= ts x.

#[global] Instance newest_first_dec {A} (ts : A -> Z) : RelDecision (newest_first ts).
Proof. intros x y. unfold newest_first. apply _. Defined.

Definition movement_ts (m : StockMovement.t) : Z := toTimestamp (StockMovement.createdAt m).
Definition requisition_ts (r : Requisition.t) : Z := toTimestamp (Requisition.createdAt r).

(** [getStockMovements(materialId?)]: the stored movements, kept to one
    material when [materialId] is truthy, newest first.  (The values of the
    [gmap] come in key order, where the [Map] gives insertion order; only
    the relative order of movements with equal timestamps depends on it.) *)
Definition getStockMovements (materialId : option string) (s : Store) : list StockMovement.t :=
  let movements := (map_to_list (stockMovements s)).*2 in
  let movements :=
    if truthy materialId
    then filter (fun m => StockMovement.materialId m = default "" materialId) movements
    else movements in
  merge_sort (newest_first movement_ts) movements.

(** [getRequisitions(employeeId?)]. *)
Definition getRequisitions (employeeId : option string) (s : Store) : list Requisition.t :=
  let requisitionsList := (map_to_list (requisitions s)).*2 in
  let requisitionsList :=
    if truthy employeeId
    then filter (fun r => Requisition.employeeId r = default "" employeeId) requisitionsList
    else requisitionsList in
  merge_sort (newest_first requisition_ts) requisitionsList.

(** [getMaterialsWithLowStock()]. *)
Definition getMaterialsWithLowStock (s : Store) : list Material.t :=
  filter (fun m => Material.currentStock m <= Material.minimumStock m) (map_to_list (materials s)).*2.

Record DashboardStats := mkDashboardStats {
  totalRequisitions : nat;
  totalMovements : nat;
  lowStockItems : nat;
  criticalStockItems : nat;
}.

(** [isWithinRange(date)] of [getDashboardStats]: every date is in range
    unless both bounds are given. *)
Definition isWithinRange (startDate endDate : option Z) (date : option Z) : bool :=
  match startDate, endDate with
  | Some st, Some en => (st <=? toTimestamp date) && (toTimestamp date <=? en)
  | _, _ => true
  end.

(** [getDashboardStats(startDate?, endDate?)]. *)
Definition getDashboardStats (startDate endDate : option Z) (s : Store) : DashboardStats :=
  let reqs := getRequisitions None s in
  let movements := getStockMovements None s in
  let filteredRequisitions :=
    List.filter (fun r => isWithinRange startDate endDate (Requisition.createdAt r)) reqs in
  let filteredMovements :=
    List.filter (fun m => isWithinRange startDate endDate (StockMovement.createdAt m)) movements in
  let lowStockMaterials := getMaterialsWithLowStock s in
  {| totalRequisitions := length filteredRequisitions;
     totalMovements := length filteredMovements;
     lowStockItems := length lowStockMaterials;
     criticalStockItems :=
       length (filter (fun m => Material.currentStock m = 0) lowStockMaterials) |}.

(** Every material is stored under its own [id]: the shape [createMaterial]
    gives the map and the other material operations keep. *)
Definition materials_keyed (s : Store) : Prop :=
  forall k m, materials s !! k = Some m -> Material.id m = k.

(** *** Audit logs *)

Module AuditLog.
(** A row of [audit_logs]. *)
Record t := mk {
  id : string;
  userId : string;
  action : string;
  entityType : string;
  entityId : string;
  changes : option json;
  ipAddress : option string;
  userAgent : option string;
  createdAt : option Z;
}.
End AuditLog.

Module InsertAuditLog.
(** [insertAuditLogSchema] omits [id] and [createdAt]. *)
Record t := mk {
  userId : string;
  action : string;
  entityType : string;
  entityId : string;
  changes : option json;
  ipAddress : option string;
  userAgent : option string;
}.
End InsertAuditLog.

(** [InMemoryStorage.auditLogs], a [Map] kept in insertion order. *)
Definition AuditLogs := list (string * AuditLog.t).

Fixpoint audit_set (k : string) (v : AuditLog.t) (m : AuditLogs) : AuditLogs :=
  match m with
  | [] => [(k, v)]
  | (k', v') :: r => if String.eqb k' k then (k, v) :: r else (k', v') :: audit_set k v r
  end.

(** [createAuditLog(log)]; [newId] is the value of [randomUUID()]. *)
Definition createAuditLog (newId : string) (now : Z) (log : InsertAuditLog.t) (logs : AuditLogs)
    : AuditLog.t * AuditLogs :=
  let record := {|
    AuditLog.id := newId;
    AuditLog.userId := InsertAuditLog.userId log;
    AuditLog.action := InsertAuditLog.action log;
    AuditLog.entityType := InsertAuditLog.entityType log;
    AuditLog.entityId := InsertAuditLog.entityId log;
    AuditLog.changes := InsertAuditLog.changes log;
    AuditLog.ipAddress := InsertAuditLog.ipAddress log;
    AuditLog.userAgent := InsertAuditLog.userAgent log;
    AuditLog.createdAt := Some now |} in
  (record, audit_set (AuditLog.id record) record logs).

Definition audit_ts (a : AuditLog.t) : Z := toTimestamp (AuditLog.createdAt a).

(** [getAuditLogs()]: newest first, at most 1000. *)
Definition getAuditLogs (logs : AuditLogs) : list AuditLog.t :=
  take 1000 (merge_sort (newest_first audit_ts) logs.*2).

(** *** Requisitions with their material and creator *)

Record MaterialSummary := mkMaterialSummary {
  ms_id : string; ms_name : string; ms_code : string; ms_unit : string }.

Record UserSummary := mkUserSummary {
  us_id : string; us_firstName : option string; us_lastName : option string; us_email : option string }.

Record RequisitionDetails := mkRequisitionDetails {
  rd_requisition : Requisition.t;
  rd_material : MaterialSummary;
  rd_createdBy : option UserSummary }.

(** [getEmployeeRequisitionsWithDetails(employeeId)]: a missing material is
    replaced by the placeholder [{ id, name: "Material", code: "", unit: "" }]. *)
Definition getEmployeeRequisitionsWithDetails (employeeId : string)
    (users : EmployeeRoutes.Users) (s : Store) : list RequisitionDetails :=
  map (fun requisition =>
         let material := materials s !! Requisition.materialId requisition in
         let createdBy :=
           if String.eqb (Requisition.createdById requisition) "" then None
           else EmployeeRoutes.map_get (Requisition.createdById requisition) users in
         {| rd_requisition := requisition;
            rd_material :=
              match material with
              | Some m => mkMaterialSummary (Material.id m) (Material.name m)
                            (Material.code m) (Material.unit m)
              | None => mkMaterialSummary (Requisition.materialId requisition) "Material" "" ""
              end;
            rd_createdBy :=
              match createdBy with
              | Some u => Some (mkUserSummary (User.id u) (User.firstName u)
                                  (User.lastName u) (User.email u))
              | None => None
              end |})
      (getRequisitions (Some employeeId) s).

(** *** Further routes of src/unnamed/part_000 *)

(** The [employeeOnly] middleware: [inr user] when it calls [next()],
    otherwise the status, the message and the session it leaves. *)
Definition employeeOnly (session : option string) (users : EmployeeRoutes.Users)
    : (Z * string * option string) + User.t :=
  match session with
  | Some employeeId =>
      if String.eqb employeeId "" then inl (401, "Não autenticado", session)
      else
        match EmployeeRoutes.getUser employeeId users with
        | Some user =>
            if decide (User.role user = FUNCIONARIO) then inr user
            else inl (403, "Acesso restrito a funcionários", None)
        | None => inl (403, "Acesso restrito a funcionários", None)
        end
  | None => inl (401, "Não autenticado", session)
  end.

(** The audit row the employee sign route appends. *)
Definition sign_audit_log (employeeId id : string) (ip userAgent : option string)
    : InsertAuditLog.t :=
  {| InsertAuditLog.userId := employeeId;
     InsertAuditLog.action := "SIGN";
     InsertAuditLog.entityType := "REQUISITION";
     InsertAuditLog.entityId := id;
     InsertAuditLog.changes := Some (JObj [("status", JStr "ASSINADA")]);
     InsertAuditLog.ipAddress := ip;
     InsertAuditLog.userAgent := userAgent |}.

(** [POST /api/employee/requisitions/:id/sign] behind [employeeOnly]: the
    session's employee is passed as [signerId]; after a signature an audit
    row is appended ([auditId] is its [randomUUID()]); errors of status 400,
    403 and 404 get their own messages, others 500. *)
Definition employee_sign_route (session : option string) (users : EmployeeRoutes.Users)
    (id : string) (userAgent ip : option string) (now : Z) (movementId auditId : string)
    (s : Store) (logs : AuditLogs)
    : SignResponse * option string * Store * AuditLogs :=
  match employeeOnly session users with
  | inl (status, msg, session') => (mkSignResponse status (BodyMessage msg), session', s, logs)
  | inr _ =>
      let employeeId := default "" session in
      match signRequisition id userAgent ip (Some employeeId) now movementId s with
      | (inr requisition, s') =>
          let logs' := snd (createAuditLog auditId now (sign_audit_log employeeId id ip userAgent) logs) in
          (mkSignResponse 200 (BodyRequisition requisition), session, s', logs')
      | (inl e, s') =>
          match error_status e with
          | Some 400 => (mkSignResponse 400 (BodyMessage "Requisição já foi assinada"), session, s', logs)
          | Some 403 => (mkSignResponse 403 (BodyMessage "Você não tem permissão para assinar esta requisição"), session, s', logs)
          | Some 404 => (mkSignResponse 404 (BodyMessage "Requisição não encontrada"), session, s', logs)
          | _ => (mkSignResponse 500 (BodyMessage "Falha ao assinar requisição"), session, s', logs)
          end
      end
  end.

(** [GET /api/requisitions]: a FUNCIONARIO (by the session's subject [sub])
    gets [getRequisitions(sub)], every other user [getRequisitions()]. *)
Definition requisitions_route (sub : string) (users : EmployeeRoutes.Users) (s : Store)
    : list Requisition.t :=
  let user := EmployeeRoutes.getUser sub users in
  let employeeId :=
    match user with
    | Some u => if decide (User.role u = FUNCIONARIO) then Some sub else None
    | None => None
    end in
  getRequisitions employeeId s.

(** [GET /api/audit-logs]: 403 unless the session's user is an ADMIN. *)
Definition audit_logs_route (sub : string) (users : EmployeeRoutes.Users) (logs : AuditLogs)
    : Z * (string + list AuditLog.t) :=
  match EmployeeRoutes.getUser sub users with
  | Some u =>
      if decide (User.role u = ADMIN) then (200, inr (getAuditLogs logs))
      else (403, inl "Access denied")
  | None => (403, inl "Access denied")
  end.

(** Sample users: two employees and an administrator. *)
Definition staff_users : EmployeeRoutes.Users :=
  [("alice", User.mk "alice" (Some "alice@example.com") (Some "Alice") None None None FUNCIONARIO (Some 0) (Some 0));
   ("bob", User.mk "bob" (Some "bob@example.com") (Some "Bob") None None None FUNCIONARIO (Some 0) (Some 0));
   ("root", User.mk "root" (Some "root@example.com") None None None None ADMIN (Some 0) (Some 0))].

(** ** Lemmas on the storage operations *)

Lemma createStockMovement_requisitions newId now mv s :
  requisitions (snd (createStockMovement newId now mv s)) = requisitions s.
Proof.
  unfold createStockMovement, getMaterial, updateMaterialStock; simpl.
  repeat case_match; reflexivity.
Qed.

Lemma createStockMovement_stockMovements newId now mv s :
  stockMovements (snd (createStockMovement newId now mv s)) =
  <[newId := fst (createStockMovement newId now mv s)]> (stockMovements s).
Proof.
  unfold createStockMovement, getMaterial, updateMaterialStock; simpl.
  repeat case_match; reflexivity.
Qed.

Lemma createStockMovement_missing newId now mv s :
  materials s !! InsertStockMovement.materialId mv = None ->
  materials (snd (createStockMovement newId now mv s)) = materials s.
Proof.
  intros H. unfold createStockMovement, getMaterial; simpl. rewrite H. reflexivity.
Qed.

Lemma createStockMovement_existing newId now mv s m :
  materials s !! InsertStockMovement.materialId mv = Some m ->
  exists m', materials (snd (createStockMovement newId now mv s))
               !! InsertStockMovement.materialId mv = Some m'
          /\ Material.currentStock m' =
             Z.max 0 (apply_type (InsertStockMovement.type mv)
                        (InsertStockMovement.quantity mv) (Material.currentStock m)).
Proof.
  intros H. unfold createStockMovement, getMaterial, updateMaterialStock; simpl.
  rewrite H; simpl.
  eexists; split; [apply lookup_insert_eq | reflexivity].
Qed.


Lemma applyMovements_material (mid : string) ms : forall s m,
  materials s !! mid = Some m ->
  Forall (fun x => InsertStockMovement.materialId (snd x) = mid) ms ->
  exists m', materials (applyMovements ms s) !! mid = Some m'
          /\ Material.currentStock m' = clamped_stock (Material.currentStock m) ms.
Proof.
  induction ms as [|[[newId now] mv] rest IH]; intros s m Hm Hall.
  - exists m. split; [exact Hm | reflexivity].
  - apply Forall_cons in Hall as [Hmv Hrest]. simpl in Hmv.
    rewrite <- Hmv in Hm.
    destruct (createStockMovement_existing newId now mv s m Hm) as (m1 & Hm1 & Hst).
    rewrite Hmv in Hm1.
    destruct (IH _ _ Hm1 Hrest) as (m' & Hm' & Hst').
    exists m'. split; [exact Hm'|].
    assert (E : apply_type (InsertStockMovement.type mv) (InsertStockMovement.quantity mv)
                  (Material.currentStock m)
                = Material.currentStock m + spec_signed_delta mv)
      by (unfold apply_type, spec_signed_delta; destruct (InsertStockMovement.type mv); lia).
    rewrite Hst'. unfold clamped_stock. simpl. rewrite Hst, E. reflexivity.
Qed.

Lemma clamped_stock_no_floor ms : forall init,
  (forall n, 0 <= init + spec_sum_deltas (take n ms)) ->
  clamped_stock init ms = init + spec_sum_deltas ms.
Proof.
  induction ms as [|x rest IH]; intros init Hpre.
  - unfold clamped_stock, spec_sum_deltas; simpl; lia.
  - unfold clamped_stock; simpl.
    pose proof (Hpre 1%nat) as H1. unfold spec_sum_deltas in H1; simpl in H1.
    rewrite Z.max_r by lia.
    fold (clamped_stock (init + spec_signed_delta x.2) rest).
    rewrite IH.
    + unfold spec_sum_deltas; simpl. lia.
    + intros n. pose proof (Hpre (S n)) as Hn. unfold spec_sum_deltas in *; simpl in Hn. lia.
Qed.

(** ** Claims *)

(** C1 (as stated, refuted): the final stock of a material is not
    [max(0, S)] for the sum [S] of the signed deltas.  Starting from the
    freshly created Bolt (stock 0), an OUTBOUND movement of 5 followed by an
    INBOUND movement of 5 leaves the stock at 5, because the first movement
    is clamped at 0, while [max(0, 0 + S) = max(0, 0) = 0]. *)
Lemma C1_final_stock_not_max_of_sum :
  option_map Material.currentStock (materials bolt_store !! "m1") = Some 0 /\
  option_map Material.currentStock (materials (applyMovements out_then_in bolt_store) !! "m1") = Some 5 /\
  Z.max 0 (0 + spec_sum_deltas out_then_in) = 0.
Proof. vm_compute. repeat split. Qed.

(** C1 (amended): for a material [mid] and a sequence of
    [createStockMovement] calls on it, the final [currentStock] is the
    initial stock clamped after each movement
    ([stock := max(0, stock + delta)], delta [+quantity] for ENTRADA/AJUSTE,
    [-quantity] for SAIDA); it equals [max(0, initial + S)] = [initial + S]
    whenever no intermediate value falls below zero. *)
Theorem stock_after_movements (mid : string) (ms : list (string * Z * InsertStockMovement.t))
    (s : Store) (m : Material.t) :
  materials s !! mid = Some m ->
  Forall (fun x => InsertStockMovement.materialId (snd x) = mid) ms ->
  exists m', materials (applyMovements ms s) !! mid = Some m'
          /\ Material.currentStock m' = clamped_stock (Material.currentStock m) ms
          /\ ((forall n, 0 <= Material.currentStock m + spec_sum_deltas (take n ms)) ->
              Material.currentStock m' = Z.max 0 (Material.currentStock m + spec_sum_deltas ms)).
Proof.
  intros Hm Hall.
  destruct (applyMovements_material mid ms s m Hm Hall) as (m' & Hm' & Hst).
  exists m'. split; [exact Hm'|]. split; [exact Hst|].
  intros Hpre. rewrite Hst, clamped_stock_no_floor by exact Hpre.
  pose proof (Hpre 0%nat) as H0. unfold spec_sum_deltas in H0; simpl in H0.
  pose proof (Hpre (length ms)) as Hn. rewrite take_ge in Hn by lia. lia.
Qed.

Lemma stock_after_movements_witness :
  materials bolt_store !! "m1" = Some (Material.mk "m1" "Bolt" "B-1" "un" None 10 0 (Some 0) (Some 0)) /\
  Forall (fun x => InsertStockMovement.materialId (snd x) = "m1") out_then_in /\
  Material.currentStock (Material.mk "m1" "Bolt" "B-1" "un" None 10 5 (Some 0) (Some 2)) = 5 /\
  exists m', materials (applyMovements out_then_in bolt_store) !! "m1" = Some m'
          /\ Material.currentStock m' = clamped_stock 0 out_then_in
          /\ ((forall n, 0 <= 0 + spec_sum_deltas (take n out_then_in)) ->
              Material.currentStock m' = Z.max 0 (0 + spec_sum_deltas out_then_in)).
Proof.
  split; [reflexivity|]. split; [repeat constructor|]. split; [reflexivity|].
  apply (stock_after_movements "m1" out_then_in bolt_store
           (Material.mk "m1" "Bolt" "B-1" "un" None 10 0 (Some 0) (Some 0))).
  - reflexivity.
  - repeat constructor.
Defined.

(** C5: a single [createStockMovement] on an existing material sets its
    [currentStock] to [max(0, old + quantity)] for ENTRADA/AJUSTE and to
    [max(0, old - quantity)] for SAIDA, and always returns the persisted
    movement (it does not fail); at stock 15 an OUTBOUND movement of 20
    leaves exactly 0. *)
Theorem createStockMovement_stock (newId : string) (now : Z) (mv : InsertStockMovement.t)
    (s : Store) (m : Material.t) :
  materials s !! InsertStockMovement.materialId mv = Some m ->
  let res := createStockMovement newId now mv s in
  stockMovements (snd res) !! newId = Some (fst res) /\
  exists m', materials (snd res) !! InsertStockMovement.materialId mv = Some m'
    /\ ((InsertStockMovement.type mv = ENTRADA \/ InsertStockMovement.type mv = AJUSTE) ->
        Material.currentStock m' = Z.max 0 (Material.currentStock m + InsertStockMovement.quantity mv))
    /\ (InsertStockMovement.type mv = SAIDA ->
        Material.currentStock m' = Z.max 0 (Material.currentStock m - InsertStockMovement.quantity mv)).
Proof.
  intros Hm res. split.
  - unfold res. rewrite createStockMovement_stockMovements. apply lookup_insert_eq.
  - destruct (createStockMovement_existing newId now mv s m Hm) as (m' & Hm' & Hst).
    exists m'. split; [exact Hm'|]. rewrite Hst. unfold apply_type.
    split; intros Hty; [destruct Hty as [Hty|Hty]|]; rewrite Hty; reflexivity.
Qed.

(** The example of C5: Bolt at stock 15, then OUTBOUND 20 gives 0. *)
Lemma createStockMovement_stock_witness :
  materials bolt_store_15 !! "m1" = Some bolt_15 /\
  exists m', materials (snd (createStockMovement "x2" 2 (movement_of SAIDA 20) bolt_store_15)) !! "m1" = Some m'
          /\ Material.currentStock m' = 0.
Proof.
  split; [reflexivity|].
  destruct (createStockMovement_stock "x2" 2 (movement_of SAIDA 20) bolt_store_15 bolt_15 eq_refl)
    as [_ (m' & Hm' & _ & Hout)].
  exists m'. split; [exact Hm'|]. rewrite (Hout eq_refl). reflexivity.
Defined.

(** C8: [createMaterial] stores and returns a record under the fresh
    identifier it draws, with [currentStock] 0 (the insert type carries no
    stock), the provided name, code, unit and unit price, and the provided
    minimum stock (0 when absent); no other material is touched. *)
Theorem createMaterial_zero_stock (newId : string) (now : Z) (input : InsertMaterial.t) (s : Store) :
  materials s !! newId = None ->
  let res := createMaterial newId now input s in
  Material.currentStock (fst res) = 0 /\
  Material.id (fst res) = newId /\
  Material.name (fst res) = InsertMaterial.name input /\
  Material.code (fst res) = InsertMaterial.code input /\
  Material.unit (fst res) = InsertMaterial.unit input /\
  Material.unitPrice (fst res) = InsertMaterial.unitPrice input /\
  Material.minimumStock (fst res) = default 0 (InsertMaterial.minimumStock input) /\
  materials (snd res) = <[newId := fst res]> (materials s) /\
  size (materials (snd res)) = S (size (materials s)).
Proof.
  intros Hfresh res. unfold res, createMaterial; simpl.
  repeat split. apply map_size_insert_None. exact Hfresh.
Qed.

Lemma createMaterial_zero_stock_witness :
  materials empty_store !! "m1" = None /\
  Material.currentStock (fst (createMaterial "m1" 0 bolt_input empty_store)) = 0.
Proof.
  split; [reflexivity|].
  apply (createMaterial_zero_stock "m1" 0 bolt_input empty_store). reflexivity.
Defined.

(** C10: a [createStockMovement] whose [materialId] names no stored
    material still persists and returns the movement (a dangling ledger
    entry), does not fail, and leaves every material as it was. *)
Theorem createStockMovement_dangling (newId : string) (now : Z) (mv : InsertStockMovement.t) (s : Store) :
  materials s !! InsertStockMovement.materialId mv = None ->
  let res := createStockMovement newId now mv s in
  StockMovement.id (fst res) = newId /\
  StockMovement.materialId (fst res) = InsertStockMovement.materialId mv /\
  StockMovement.type (fst res) = InsertStockMovement.type mv /\
  StockMovement.quantity (fst res) = InsertStockMovement.quantity mv /\
  StockMovement.userId (fst res) = InsertStockMovement.userId mv /\
  stockMovements (snd res) = <[newId := fst res]> (stockMovements s) /\
  materials (snd res) = materials s.
Proof.
  intros Hmissing res. unfold res.
  rewrite createStockMovement_stockMovements, createStockMovement_missing by exact Hmissing.
  repeat split.
Qed.

Lemma createStockMovement_dangling_witness :
  materials bolt_store !! "ghost" = None /\
  materials (snd (createStockMovement "x9" 1
    (InsertStockMovement.mk "ghost" SAIDA 3 None None "u1" None) bolt_store)) = materials bolt_store.
Proof.
  split; [reflexivity|].
  apply (createStockMovement_dangling "x9" 1
           (InsertStockMovement.mk "ghost" SAIDA 3 None None "u1" None) bolt_store).
  reflexivity.
Defined.

(** C2: signing an existing requisition that is not ASSINADA, with no
    [signerId] or with its own employee as [signerId], succeeds: the
    requisition becomes ASSINADA with [signedAt], device and IP stamped, and
    exactly one new movement is stored (under the fresh identifier the
    nested [createStockMovement] draws): a SAIDA of the requisition's
    material and quantity, by its employee, linked to it, with the note
    ["Requisição assinada - " ++ note] or ["Requisição assinada"] when the
    requisition has no note.  The call returns the updated requisition. *)
Theorem signRequisition_success (id : string) (dev ip signerId : option string) (now : Z)
    (movementId : string) (s : Store) (r : Requisition.t) :
  requisitions s !! id = Some r ->
  Requisition.status r <> ASSINADA ->
  (signerId = None \/ signerId = Some (Requisition.employeeId r)) ->
  stockMovements s !! movementId = None ->
  let res := signRequisition id dev ip signerId now movementId s in
  exists upd mv,
    fst res = inr upd /\
    requisitions (snd res) !! id = Some upd /\
    Requisition.status upd = ASSINADA /\
    Requisition.signedAt upd = Some now /\
    Requisition.signedByDevice upd = dev /\
    Requisition.signedByIp upd = ip /\
    stockMovements (snd res) = <[movementId := mv]> (stockMovements s) /\
    size (stockMovements (snd res)) = S (size (stockMovements s)) /\
    StockMovement.type mv = SAIDA /\
    StockMovement.materialId mv = Requisition.materialId r /\
    StockMovement.quantity mv = Requisition.quantity r /\
    StockMovement.userId mv = Requisition.employeeId r /\
    StockMovement.requisitionId mv = Some id /\
    (forall o, Requisition.observation r = Some o -> o <> "" ->
       StockMovement.observation mv = Some ("Requisição assinada - " +:+ o)) /\
    ((Requisition.observation r = None \/ Requisition.observation r = Some "") ->
       StockMovement.observation mv = Some "Requisição assinada").
Proof.
  intros Hr Hst Hsigner Hfresh res. unfold res, signRequisition. rewrite Hr.
  assert (Hm : signer_mismatch signerId (Requisition.employeeId r) = false).
  { destruct Hsigner as [-> | ->]; [reflexivity|].
    simpl. rewrite String.eqb_refl. apply andb_false_r. }
  rewrite Hm.
  destruct (decide (Requisition.status r = ASSINADA)) as [Hsig|_]; [contradiction|].
  match goal with
  | |- context [createStockMovement movementId now ?mvin ?s1] =>
      pose proof (createStockMovement_requisitions movementId now mvin s1) as Hreq;
      pose proof (createStockMovement_stockMovements movementId now mvin s1) as Hmov;
      destruct (createStockMovement movementId now mvin s1) as [rec s2] eqn:Ec
  end.
  simpl in Hreq, Hmov. simpl.
  eexists _, rec. split; [reflexivity|]. split; [rewrite Hreq; apply lookup_insert_eq|].
  do 4 (split; [reflexivity|]).
  split; [exact Hmov|].
  split; [rewrite Hmov; apply map_size_insert_None; exact Hfresh|].
  injection Ec as <- _. simpl.
  do 5 (split; [reflexivity|]). split.
  - intros o Ho Hne. rewrite Ho. unfold observationText, truthy.
    apply String.eqb_neq in Hne. rewrite Hne. reflexivity.
  - intros [Ho|Ho]; rewrite Ho; reflexivity.
Qed.

Lemma signRequisition_success_witness :
  requisitions (store_with (requisition_of PENDENTE)) !! "r1" = Some (requisition_of PENDENTE) /\
  Requisition.status (requisition_of PENDENTE) <> ASSINADA /\
  stockMovements (store_with (requisition_of PENDENTE)) !! "x5" = None /\
  exists upd mv,
    fst (signRequisition "r1" None None (Some "alice") 5 "x5" (store_with (requisition_of PENDENTE))) = inr upd /\
    Requisition.status upd = ASSINADA /\
    stockMovements (snd (signRequisition "r1" None None (Some "alice") 5 "x5" (store_with (requisition_of PENDENTE))))
      = <[ "x5" := mv ]> (stockMovements (store_with (requisition_of PENDENTE))) /\
    StockMovement.type mv = SAIDA.
Proof.
  split; [reflexivity|]. split; [discriminate|]. split; [reflexivity|].
  destruct (signRequisition_success "r1" None None (Some "alice") 5 "x5"
              (store_with (requisition_of PENDENTE)) (requisition_of PENDENTE)
              eq_refl ltac:(discriminate) (or_intror eq_refl) eq_refl)
    as (upd & mv & H1 & _ & H3 & _ & _ & _ & H7 & _ & H9 & _).
  exists upd, mv. auto.
Defined.

(** C3 (as stated, refuted): signing a requisition that is already
    ASSINADA does not always fail with [AlreadySigned]: a non-empty
    [signerId] other than its employee fails first with [Forbidden]. *)
Lemma C3_signed_but_forbidden :
  Requisition.status (requisition_of ASSINADA) = ASSINADA /\
  fst (signRequisition "r1" None None (Some "bob") 5 "x5" (store_with (requisition_of ASSINADA)))
    = inl Forbidden.
Proof. split; reflexivity. Qed.

(** C3 (amended): signing an ASSINADA requisition always fails and leaves
    the whole store unchanged (requisition, signing metadata, movements and
    stocks); the error is [AlreadySigned] when no [signerId] (or an empty
    one) or the requisition's own employee is given, and [Forbidden] when a
    non-empty [signerId] other than its employee is given. *)
Theorem signRequisition_already_signed (id : string) (dev ip signerId : option string)
    (now : Z) (movementId : string) (s : Store) (r : Requisition.t) :
  requisitions s !! id = Some r ->
  Requisition.status r = ASSINADA ->
  let res := signRequisition id dev ip signerId now movementId s in
  snd res = s /\
  ((forall sid, signerId = Some sid -> sid = "" \/ sid = Requisition.employeeId r) ->
     fst res = inl AlreadySigned) /\
  ((exists sid, signerId = Some sid /\ sid <> "" /\ sid <> Requisition.employeeId r) ->
     fst res = inl Forbidden).
Proof.
  intros Hr Hst res. unfold res, signRequisition. rewrite Hr.
  destruct (decide (Requisition.status r = ASSINADA)) as [_|Hn]; [|contradiction].
  destruct (signer_mismatch signerId (Requisition.employeeId r)) eqn:Hm.
  - split; [reflexivity|]. split; [|intros; reflexivity].
    intros Hall. exfalso.
    destruct signerId as [sid|]; [|discriminate].
    destruct (Hall sid eq_refl) as [->| ->]; simpl in Hm.
    + discriminate.
    + rewrite String.eqb_refl, andb_false_r in Hm. discriminate.
  - split; [reflexivity|]. split; [intros; reflexivity|].
    intros (sid & -> & Hne & Hemp). simpl in Hm. unfold truthy in Hm.
    apply String.eqb_neq in Hne. rewrite Hne in Hm.
    assert (Hemp' : String.eqb (Requisition.employeeId r) sid = false)
      by (apply String.eqb_neq; congruence).
    rewrite Hemp' in Hm. discriminate.
Qed.

Lemma signRequisition_already_signed_witness :
  requisitions (store_with (requisition_of ASSINADA)) !! "r1" = Some (requisition_of ASSINADA) /\
  snd (signRequisition "r1" None None None 5 "x5" (store_with (requisition_of ASSINADA)))
    = store_with (requisition_of ASSINADA).
Proof.
  split; [reflexivity|].
  apply (signRequisition_already_signed "r1" None None None 5 "x5"
           (store_with (requisition_of ASSINADA)) (requisition_of ASSINADA)); reflexivity.
Defined.

(** C4 (as stated, refuted): a [signerId] that differs from the
    requisition's employee does not always fail with [Forbidden]: the empty
    string is falsy, so the guard [signerId && ...] skips the check, the
    requisition is signed and a movement is created. *)
Lemma C4_empty_signer_not_forbidden :
  "" <> Requisition.employeeId (requisition_of PENDENTE) /\
  exists upd,
    fst (signRequisition "r1" None None (Some "") 5 "x5" (store_with (requisition_of PENDENTE))) = inr upd /\
    is_Some (stockMovements (snd (signRequisition "r1" None None (Some "") 5 "x5"
                                    (store_with (requisition_of PENDENTE)))) !! "x5").
Proof.
  split; [discriminate|]. eexists. split; [reflexivity|]. vm_compute. eexists. reflexivity.
Qed.

(** C4 (amended): for an existing requisition, a non-empty [signerId]
    different from its employee fails with [Forbidden] and leaves the store
    unchanged (no movement, no stock change); with no [signerId], or an
    empty one, the check is skipped and the call never fails with
    [Forbidden]. *)
Theorem signRequisition_forbidden (id : string) (dev ip : option string) (now : Z)
    (movementId : string) (s : Store) (r : Requisition.t) :
  requisitions s !! id = Some r ->
  (forall sid, sid <> "" -> sid <> Requisition.employeeId r ->
     signRequisition id dev ip (Some sid) now movementId s = (inl Forbidden, s)) /\
  (forall signerId, (signerId = None \/ signerId = Some "") ->
     fst (signRequisition id dev ip signerId now movementId s) <> inl Forbidden).
Proof.
  intros Hr. unfold signRequisition. rewrite Hr. split.
  - intros sid Hne Hemp. simpl. unfold truthy.
    apply String.eqb_neq in Hne. rewrite Hne.
    assert (Hemp' : String.eqb (Requisition.employeeId r) sid = false)
      by (apply String.eqb_neq; congruence).
    rewrite Hemp'. reflexivity.
  - intros signerId Hsg.
    assert (Hm : signer_mismatch signerId (Requisition.employeeId r) = false)
      by (destruct Hsg as [-> | ->]; reflexivity).
    rewrite Hm.
    destruct (decide (Requisition.status r = ASSINADA)); [discriminate|].
    destruct (createStockMovement _ _ _ _). discriminate.
Qed.

Lemma signRequisition_forbidden_witness :
  requisitions (store_with (requisition_of PENDENTE)) !! "r1" = Some (requisition_of PENDENTE) /\
  signRequisition "r1" None None (Some "bob") 5 "x5" (store_with (requisition_of PENDENTE))
    = (inl Forbidden, store_with (requisition_of PENDENTE)).
Proof.
  split; [reflexivity|].
  apply (signRequisition_forbidden "r1" None None 5 "x5" (store_with (requisition_of PENDENTE))
           (requisition_of PENDENTE) eq_refl); discriminate.
Defined.

Lemma stepReq_keeps_signed (id : string) (op : ReqOp) (s : Store) (r : Requisition.t) :
  requisitions s !! id = Some r ->
  Requisition.status r = ASSINADA ->
  keeps_signed id op ->
  exists r', requisitions (stepReq op s) !! id = Some r' /\ Requisition.status r' = ASSINADA.
Proof.
  intros Hr Hst Hk. destruct op as [newId now input | id' now patch | id' dev ip signer now mid];
    simpl in Hk |- *.
  - exists r. simpl. rewrite lookup_insert_ne by congruence. auto.
  - unfold updateRequisition. destruct (requisitions s !! id') as [e|] eqn:He; simpl; [|eauto].
    destruct (decide (id' = id)) as [->|Hne].
    + rewrite lookup_insert_eq. eexists; split; [reflexivity|].
      rewrite Hr in He. injection He as <-. simpl.
      destruct Hk as [Hk|[Hk|Hk]]; [congruence| |]; rewrite Hk; simpl; [exact Hst|reflexivity].
    + rewrite lookup_insert_ne by congruence. eauto.
  - unfold signRequisition. destruct (requisitions s !! id') as [q|] eqn:Hq; [|simpl; eauto].
    destruct (signer_mismatch signer (Requisition.employeeId q)); [simpl; eauto|].
    destruct (decide (Requisition.status q = ASSINADA)); [simpl; eauto|].
    match goal with
    | |- context [createStockMovement mid now ?mvin ?s1] =>
        pose proof (createStockMovement_requisitions mid now mvin s1) as Hreq;
        destruct (createStockMovement mid now mvin s1) as [rec s2]
    end.
    simpl in Hreq |- *. rewrite Hreq.
    destruct (decide (id' = id)) as [->|Hne].
    + rewrite lookup_insert_eq. eexists; split; reflexivity.
    + rewrite lookup_insert_ne by congruence. eauto.
Qed.

(** C6 (as stated, refuted): [updateRequisition] has no transition guard:
    an update whose input carries [status: PENDENTE] turns an ASSINADA
    requisition back into PENDENTE. *)
Lemma C6_update_unsigns :
  Requisition.status (requisition_of ASSINADA) = ASSINADA /\
  option_map Requisition.status
    (requisitions (runReq [OpUpdate "r1" 5 (PartialRequisition.mk None None None None (Some PENDENTE) None)]
                          (store_with (requisition_of ASSINADA))) !! "r1") = Some PENDENTE.
Proof. split; reflexivity. Qed.

(** C6 (amended): once requisition [id] is ASSINADA it stays ASSINADA
    through any sequence of [signRequisition] calls, [createRequisition]
    calls under other identifiers, and [updateRequisition] calls that target
    another requisition or whose input carries no status other than
    ASSINADA; only an [updateRequisition] of [id] whose input sets another
    status (such as PENDENTE) moves it out of ASSINADA. *)
Theorem signed_stays_signed (id : string) (ops : list ReqOp) :
  forall (s : Store) (r : Requisition.t),
  requisitions s !! id = Some r ->
  Requisition.status r = ASSINADA ->
  Forall (keeps_signed id) ops ->
  exists r', requisitions (runReq ops s) !! id = Some r' /\ Requisition.status r' = ASSINADA.
Proof.
  unfold runReq. induction ops as [|op rest IH]; intros s r Hr Hst Hall.
  - simpl. eauto.
  - apply Forall_cons in Hall as [Hop Hrest]. simpl.
    destruct (stepReq_keeps_signed id op s r Hr Hst Hop) as (r1 & Hr1 & Hst1).
    exact (IH _ r1 Hr1 Hst1 Hrest).
Qed.

Lemma signed_stays_signed_witness :
  requisitions (store_with (requisition_of ASSINADA)) !! "r1" = Some (requisition_of ASSINADA) /\
  exists r', requisitions (runReq [OpSign "r1" None None None 5 "x5";
                                   OpCreate "r2" 6 (InsertRequisition.mk "alice" "m1" 1 None None "admin");
                                   OpUpdate "r1" 7 (PartialRequisition.mk None None (Some 9) None None None)]
                                  (store_with (requisition_of ASSINADA))) !! "r1" = Some r'
          /\ Requisition.status r' = ASSINADA.
Proof.
  split; [reflexivity|].
  apply (signed_stays_signed "r1" _ (store_with (requisition_of ASSINADA)) (requisition_of ASSINADA)
           eq_refl eq_refl).
  apply Forall_cons; split; [exact I|].
  apply Forall_cons; split; [simpl; discriminate|].
  apply Forall_cons; split; [simpl; right; left; reflexivity|].
  apply Forall_nil; exact I.
Defined.

(** C7 (divergence): the admin sign handler of src/server/routes.ts answers
    500 for every failure of [signRequisition]: 500 for a requisition that
    is already signed (where 400 is expected) and 500 for a missing one
    (where 404 is expected), although [signRequisition] attaches those
    statuses to its errors; the copy of the same route in
    src/unnamed/part_000 forwards them (400 and 404). *)
Theorem admin_sign_status_codes :
  sr_status (fst (admin_sign_routes_ts "r1" None None 5 "x5" (store_with (requisition_of ASSINADA)))) = 500 /\
  sr_status (fst (admin_sign_routes_ts "nope" None None 5 "x5" (store_with (requisition_of ASSINADA)))) = 500 /\
  sr_status (fst (admin_sign_part_000 "r1" None None 5 "x5" (store_with (requisition_of ASSINADA)))) = 400 /\
  sr_status (fst (admin_sign_part_000 "nope" None None 5 "x5" (store_with (requisition_of ASSINADA)))) = 404.
Proof. vm_compute. repeat split. Qed.

Lemma has_key_arr (k : string) (l : list json) :
  has_key k (JArr l) = existsb (has_key k) l.
Proof.
  induction l as [|x r IH]; [reflexivity|].
  simpl in *. rewrite <- IH. reflexivity.
Qed.

Lemma has_key_obj (k : string) (fs : list (string * json)) :
  has_key k (JObj fs) = existsb (fun kv => String.eqb (fst kv) k || has_key k (snd kv)) fs.
Proof.
  induction fs as [|[k' v] r IH]; [reflexivity|].
  simpl in *. rewrite <- IH. reflexivity.
Qed.

Lemma has_key_sanitizeUser (u : User.t) :
  has_key "passwordHash" (EmployeeRoutes.sanitizeUser u) = false.
Proof.
  destruct u as [id [e|] [f|] [l|] [p|] [h|] role [c|] [d|]];
    destruct role; reflexivity.
Qed.

Lemma has_key_check_field (path : string) (v : option string) (ok : string -> bool) (msg : string) :
  existsb (has_key "passwordHash") (EmployeeRoutes.check_field path v ok msg) = false.
Proof.
  unfold EmployeeRoutes.check_field. destruct v as [x|]; [destruct (ok x)|]; reflexivity.
Qed.

Lemma has_key_invalid_data (issues : list json) :
  existsb (has_key "passwordHash") issues = false ->
  has_key "passwordHash" (EmployeeRoutes.body (EmployeeRoutes.invalid_data issues)) = false.
Proof.
  intros H. unfold EmployeeRoutes.invalid_data. cbn [EmployeeRoutes.body].
  rewrite has_key_obj. cbn [existsb fst snd]. rewrite has_key_arr, H. reflexivity.
Qed.

(** C9: the bodies answered by [POST /api/employee/register],
    [POST /api/employee/login] and [GET /api/employee/me] never contain a
    [passwordHash] key, whatever the request, the session and the stored
    users: users are always returned through [sanitizeUser], and the other
    bodies are messages and validation issues. *)
Theorem employee_responses_hide_passwordHash
    (scrypt_hex : string -> string -> string) (isEmail : string -> bool)
    (rb : EmployeeRoutes.RegisterBody) (lb : EmployeeRoutes.LoginBody)
    (salt newId : string) (now : Z) (session : option string) (users : EmployeeRoutes.Users) :
  has_key "passwordHash"
    (EmployeeRoutes.body (fst (EmployeeRoutes.register scrypt_hex isEmail rb salt newId now users))) = false /\
  has_key "passwordHash"
    (EmployeeRoutes.body (fst (EmployeeRoutes.login scrypt_hex isEmail lb session users))) = false /\
  has_key "passwordHash"
    (EmployeeRoutes.body (fst (EmployeeRoutes.me session users))) = false.
Proof.
  split; [|split].
  - unfold EmployeeRoutes.register.
    assert (Hiss : existsb (has_key "passwordHash") (EmployeeRoutes.registration_issues isEmail rb) = false).
    { unfold EmployeeRoutes.registration_issues. rewrite !existsb_app, !has_key_check_field. reflexivity. }
    destruct (EmployeeRoutes.registration_issues isEmail rb) as [|i is] eqn:Hi;
      [|apply has_key_invalid_data; exact Hiss].
    destruct (EmployeeRoutes.rb_name rb), (EmployeeRoutes.rb_email rb), (EmployeeRoutes.rb_password rb);
      try (apply has_key_invalid_data; reflexivity).
    destruct (EmployeeRoutes.getUserByEmail _ _); [reflexivity|].
    destruct (EmployeeRoutes.createEmployeeUser _ _ _ _ _ _). apply has_key_sanitizeUser.
  - unfold EmployeeRoutes.login.
    assert (Hiss : existsb (has_key "passwordHash") (EmployeeRoutes.login_issues isEmail lb) = false).
    { unfold EmployeeRoutes.login_issues. rewrite !existsb_app, !has_key_check_field. reflexivity. }
    destruct (EmployeeRoutes.login_issues isEmail lb) as [|i is] eqn:Hi;
      [|apply has_key_invalid_data; exact Hiss].
    destruct (EmployeeRoutes.lb_email lb), (EmployeeRoutes.lb_password lb);
      try (apply has_key_invalid_data; reflexivity).
    destruct (EmployeeRoutes.getUserByEmail _ _) as [u|]; [|reflexivity].
    destruct (_ && _); [|reflexivity].
    destruct (EmployeeRoutes.verifyPassword _ _ _); [apply has_key_sanitizeUser|reflexivity].
  - unfold EmployeeRoutes.me. destruct session as [sid|]; [|reflexivity].
    destruct (String.eqb sid ""); [reflexivity|].
    destruct (EmployeeRoutes.getUser sid users) as [u|]; [|reflexivity].
    destruct (decide _); [apply has_key_sanitizeUser|reflexivity].
Qed.

(** ** Further properties of the storage operations *)

(** *** Helper lemmas *)

Lemma values_elem {A} (m : gmap string A) x :
  x ∈ (map_to_list m).*2 <-> exists k, m !! k = Some x.
Proof.
  rewrite list_elem_of_fmap. split.
  - intros [[k y] [-> Hin]]. exists k. by apply elem_of_map_to_list.
  - intros [k Hk]. exists (k, x). split; [done|]. by apply elem_of_map_to_list.
Qed.

#[global] Instance newest_first_total {A} (ts : A -> Z) : Total (newest_first ts).
Proof. intros x y. unfold newest_first. lia. Qed.

#[global] Instance newest_first_trans {A} (ts : A -> Z) : Transitive (newest_first ts).
Proof. intros x y z. unfold newest_first. lia. Qed.

Lemma listing_elem {A} (ts : A -> Z) (P : A -> Prop) `{forall x, Decision (P x)}
    (b : bool) (l : list A) x :
  x ∈ merge_sort (newest_first ts) (if b then filter P l else l) <->
  x ∈ l /\ (b = true -> P x).
Proof.
  rewrite (merge_sort_Permutation _ _). destruct b.
  - rewrite list_elem_of_filter. naive_solver.
  - naive_solver.
Qed.

Lemma getStockMovements_elem o s mv :
  mv ∈ getStockMovements o s <->
  (exists k, stockMovements s !! k = Some mv) /\
  (truthy o = true -> StockMovement.materialId mv = default "" o).
Proof. unfold getStockMovements. rewrite listing_elem, values_elem. reflexivity. Qed.

Lemma getRequisitions_elem o s r :
  r ∈ getRequisitions o s <->
  (exists k, requisitions s !! k = Some r) /\
  (truthy o = true -> Requisition.employeeId r = default "" o).
Proof. unfold getRequisitions. rewrite listing_elem, values_elem. reflexivity. Qed.

Lemma listing_length_all {A} (ts : A -> Z) (m : gmap string A) :
  length (merge_sort (newest_first ts) (map_to_list m).*2) = map_size m.
Proof.
  rewrite (Permutation_length (merge_sort_Permutation _ _)), length_fmap.
  apply length_map_to_list.
Qed.

Lemma Sorted_take {A} (R : relation A) (l : list A) n :
  Sorted R l -> Sorted R (take n l).
Proof.
  revert n. induction l as [|x l IH]; intros n Hs; [by rewrite take_nil|].
  destruct n as [|n]; [constructor|]. simpl.
  apply Sorted_inv in Hs as [Hs Hhd]. constructor; [by apply IH|].
  destruct l as [|y l]; destruct n; simpl; try constructor.
  by inversion Hhd.
Qed.

Lemma isWithinRange_open st en d :
  (st = None \/ en = None) -> isWithinRange st en d = true.
Proof. unfold isWithinRange. intros [-> | ->]; [done|]. by destruct st. Qed.

Lemma filter_true_id {A} (f : A -> bool) (l : list A) :
  (forall x, f x = true) -> List.filter f l = l.
Proof. intros Hf. induction l as [|x l IH]; simpl; [done|]. by rewrite Hf, IH. Qed.

Lemma filter_false_nil {A} (f : A -> bool) (l : list A) :
  (forall x, f x = false) -> List.filter f l = [].
Proof. intros Hf. induction l as [|x l IH]; simpl; [done|]. by rewrite Hf, IH. Qed.

Lemma updateMaterialStock_keyed mid st now s :
  materials_keyed s -> materials_keyed (updateMaterialStock mid st now s).
Proof.
  unfold materials_keyed, updateMaterialStock. intros Hk k m.
  destruct (materials s !! mid) as [e|] eqn:He; [|apply Hk]. simpl.
  destruct (decide (k = mid)) as [->|Hne].
  - rewrite lookup_insert_eq. intros [= <-]. simpl. by apply Hk.
  - rewrite lookup_insert_ne by congruence. apply Hk.
Qed.

Lemma createStockMovement_keyed newId now mv s :
  materials_keyed s -> materials_keyed (snd (createStockMovement newId now mv s)).
Proof.
  intros Hk. unfold createStockMovement; simpl.
  case_match; [apply updateMaterialStock_keyed|]; exact Hk.
Qed.

Lemma audit_set_elem k v (m : AuditLogs) :
  (k, v) ∈ audit_set k v m.
Proof.
  induction m as [|[k' v'] m IH]; simpl; [left|].
  destruct (String.eqb k' k); [left|right; exact IH].
Qed.

Lemma audit_set_length k v (m : AuditLogs) :
  (length (audit_set k v m) <= S (length m))%nat.
Proof.
  induction m as [|[k' v'] m IH]; simpl; [lia|].
  destruct (String.eqb k' k); simpl; lia.
Qed.

(** *** updateMaterial and deleteMaterial *)



(** Deleting a material does not stop movements on it: a later
    createStockMovement for that material is still recorded, and the
    material is not brought back (the material map stays the one
    deleteMaterial left). *)
Theorem deleteMaterial_then_movement newId now mv s :
  materials (snd (createStockMovement newId now mv
                   (deleteMaterial (InsertStockMovement.materialId mv) s))) =
    delete (InsertStockMovement.materialId mv) (materials s) /\
  stockMovements (snd (createStockMovement newId now mv
                   (deleteMaterial (InsertStockMovement.materialId mv) s))) !! newId =
    Some (fst (createStockMovement newId now mv
                (deleteMaterial (InsertStockMovement.materialId mv) s))).
Proof.
  split.
  - rewrite createStockMovement_missing; [reflexivity|]. simpl. apply lookup_delete_eq.
  - rewrite createStockMovement_stockMovements. apply lookup_insert_eq.
Qed.

(** Every material operation, and the two operations that update stock
    (createStockMovement and signRequisition), keep each material stored
    under its own id. *)
Theorem materials_keyed_preserved s :
  materials_keyed s ->
  (forall newId now mi, materials_keyed (snd (createMaterial newId now mi s))) /\
  (forall id now p, materials_keyed (snd (updateMaterial id now p s))) /\
  (forall mid st now, materials_keyed (updateMaterialStock mid st now s)) /\
  (forall id, materials_keyed (deleteMaterial id s)) /\
  (forall newId now mv, materials_keyed (snd (createStockMovement newId now mv s))) /\
  (forall id dev ip signer now mvid,
     materials_keyed (snd (signRequisition id dev ip signer now mvid s))).
Proof.
  intros Hk. split; [|split; [|split; [|split; [|split]]]].
  - intros newId now mi k m. simpl.
    destruct (decide (k = newId)) as [->|Hne].
    + rewrite lookup_insert_eq. by intros [= <-].
    + rewrite lookup_insert_ne by congruence. apply Hk.
  - intros id now p k m. unfold updateMaterial.
    destruct (materials s !! id) as [e|] eqn:He; [|apply Hk]. simpl.
    destruct (decide (k = id)) as [->|Hne].
    + rewrite lookup_insert_eq. intros [= <-]. simpl. by apply Hk.
    + rewrite lookup_insert_ne by congruence. apply Hk.
  - intros. by apply updateMaterialStock_keyed.
  - intros id k m. simpl. destruct (decide (k = id)) as [->|Hne].
    + by rewrite lookup_delete_eq.
    + rewrite lookup_delete_ne by congruence. apply Hk.
  - intros. by apply createStockMovement_keyed.
  - intros id dev ip signer now mvid. unfold signRequisition.
    destruct (requisitions s !! id); [|exact Hk].
    case_match; [exact Hk|]. case_match; [exact Hk|].
    destruct (createStockMovement _ _ _ _) as [x s2] eqn:Hc.
    change s2 with (snd (x, s2)). rewrite <- Hc.
    by apply createStockMovement_keyed.
Qed.

Lemma materials_keyed_preserved_witness :
  materials_keyed bolt_store /\
  materials_keyed (snd (signRequisition "r1" None None (Some "alice") 1 "x" bolt_store)).
Proof.
  assert (Hk : materials_keyed bolt_store).
  { intros k m. unfold bolt_store, createMaterial. simpl.
    destruct (decide (k = "m1")) as [->|Hne].
    - rewrite lookup_insert_eq. by intros [= <-].
    - rewrite lookup_insert_ne by congruence. by rewrite lookup_empty. }
  split; [exact Hk|].
  apply (materials_keyed_preserved bolt_store Hk).
Defined.

(** *** Listings *)

(** A material is reported as low on stock exactly when it is stored and
    its current stock is at most its minimum stock. *)
Theorem getMaterialsWithLowStock_spec s m :
  m ∈ getMaterialsWithLowStock s <->
  (exists k, materials s !! k = Some m) /\ Material.currentStock m <= Material.minimumStock m.
Proof.
  unfold getMaterialsWithLowStock. rewrite list_elem_of_filter, values_elem. naive_solver.
Qed.

(** getStockMovements lists the stored movements newest first
    ([createdAt] non-increasing, a missing date counting as 0); with a
    non-empty [materialId] it lists exactly that material's movements,
    otherwise all of them. *)
Theorem getStockMovements_spec o s :
  Sorted (newest_first movement_ts) (getStockMovements o s) /\
  (forall mv, mv ∈ getStockMovements o s <->
     (exists k, stockMovements s !! k = Some mv) /\
     (truthy o = true -> StockMovement.materialId mv = default "" o)) /\
  (truthy o = false -> length (getStockMovements o s) = map_size (stockMovements s)).
Proof.
  split; [|split].
  - apply Sorted_merge_sort, _.
  - intros mv. apply getStockMovements_elem.
  - intros Ho. unfold getStockMovements. rewrite Ho. apply listing_length_all.
Qed.

(** getRequisitions lists the stored requisitions newest first; with a
    non-empty [employeeId] it lists exactly that employee's requisitions,
    otherwise all of them. *)
Theorem getRequisitions_spec o s :
  Sorted (newest_first requisition_ts) (getRequisitions o s) /\
  (forall r, r ∈ getRequisitions o s <->
     (exists k, requisitions s !! k = Some r) /\
     (truthy o = true -> Requisition.employeeId r = default "" o)) /\
  (truthy o = false -> length (getRequisitions o s) = map_size (requisitions s)).
Proof.
  split; [|split].
  - apply Sorted_merge_sort, _.
  - intros r. apply getRequisitions_elem.
  - intros Ho. unfold getRequisitions. rewrite Ho. apply listing_length_all.
Qed.

(** A movement just recorded by createStockMovement is listed by
    getStockMovements for its (non-empty) material id. *)
Theorem createStockMovement_listed newId now mv s :
  InsertStockMovement.materialId mv <> "" ->
  fst (createStockMovement newId now mv s) ∈
    getStockMovements (Some (InsertStockMovement.materialId mv))
      (snd (createStockMovement newId now mv s)).
Proof.
  intros Hne. apply getStockMovements_elem. split.
  - exists newId. rewrite createStockMovement_stockMovements. apply lookup_insert_eq.
  - intros _. reflexivity.
Qed.

Lemma createStockMovement_listed_witness :
  InsertStockMovement.materialId (movement_of SAIDA 3) <> "" /\
  fst (createStockMovement "x" 1 (movement_of SAIDA 3) bolt_store) ∈
    getStockMovements (Some (InsertStockMovement.materialId (movement_of SAIDA 3)))
      (snd (createStockMovement "x" 1 (movement_of SAIDA 3) bolt_store)).
Proof.
  split; [discriminate|]. apply createStockMovement_listed. discriminate.
Defined.

(** A requisition just created is listed by getRequisitions for its
    (non-empty) employee id. *)
Theorem createRequisition_listed newId now req s :
  InsertRequisition.employeeId req <> "" ->
  fst (createRequisition newId now req s) ∈
    getRequisitions (Some (InsertRequisition.employeeId req))
      (snd (createRequisition newId now req s)).
Proof.
  intros Hne. apply getRequisitions_elem. split.
  - exists newId. apply lookup_insert_eq.
  - intros _. reflexivity.
Qed.

Lemma createRequisition_listed_witness :
  InsertRequisition.employeeId (InsertRequisition.mk "alice" "m1" 5 None None "admin") <> "" /\
  fst (createRequisition "r1" 1 (InsertRequisition.mk "alice" "m1" 5 None None "admin") empty_store) ∈
    getRequisitions (Some (InsertRequisition.employeeId (InsertRequisition.mk "alice" "m1" 5 None None "admin")))
      (snd (createRequisition "r1" 1 (InsertRequisition.mk "alice" "m1" 5 None None "admin") empty_store)).
Proof.
  split; [discriminate|]. apply createRequisition_listed. discriminate.
Defined.

(** *** Dashboard *)

(** Unless both a start and an end date are given, the dashboard counts
    every stored requisition and every stored movement. *)
Theorem getDashboardStats_unbounded st en s :
  (st = None \/ en = None) ->
  totalRequisitions (getDashboardStats st en s) = map_size (requisitions s) /\
  totalMovements (getDashboardStats st en s) = map_size (stockMovements s).
Proof.
  intros Hopen. unfold getDashboardStats; simpl.
  rewrite !filter_true_id by (intros; by apply isWithinRange_open).
  unfold getRequisitions, getStockMovements; simpl.
  split; apply listing_length_all.
Qed.

Lemma getDashboardStats_unbounded_witness :
  ((Some 5 : option Z) = None \/ (None : option Z) = None) /\
  totalRequisitions (getDashboardStats (Some 5) None bolt_store) = map_size (requisitions bolt_store) /\
  totalMovements (getDashboardStats (Some 5) None bolt_store) = map_size (stockMovements bolt_store).
Proof.
  split; [right; reflexivity|]. apply getDashboardStats_unbounded. right; reflexivity.
Defined.

(** A date range whose start lies after its end counts no requisition and
    no movement. *)
Theorem getDashboardStats_inverted a b s :
  b < a ->
  totalRequisitions (getDashboardStats (Some a) (Some b) s) = 0%nat /\
  totalMovements (getDashboardStats (Some a) (Some b) s) = 0%nat.
Proof.
  intros Hab. unfold getDashboardStats; simpl.
  assert (Hr : forall d, isWithinRange (Some a) (Some b) d = false).
  { intros d. unfold isWithinRange.
    destruct (Z.leb_spec a (toTimestamp d)), (Z.leb_spec (toTimestamp d) b); simpl; lia || done. }
  rewrite !filter_false_nil by (intros; apply Hr). done.
Qed.

Lemma getDashboardStats_inverted_witness :
  0 < 10 /\
  totalRequisitions (getDashboardStats (Some 10) (Some 0) bolt_store) = 0%nat /\
  totalMovements (getDashboardStats (Some 10) (Some 0) bolt_store) = 0%nat.
Proof. split; [lia|]. apply getDashboardStats_inverted. lia. Defined.

(** The dashboard's critical items (stock 0) are among its low-stock items,
    which are at most the number of stored materials, whatever the range. *)
Theorem getDashboardStats_stock_counts st en s :
  (criticalStockItems (getDashboardStats st en s) <= lowStockItems (getDashboardStats st en s))%nat /\
  (lowStockItems (getDashboardStats st en s) <= map_size (materials s))%nat.
Proof.
  unfold getDashboardStats; simpl. split; [apply length_filter|].
  unfold getMaterialsWithLowStock.
  etransitivity; [apply length_filter|].
  rewrite length_fmap. by rewrite length_map_to_list.
Qed.

(** *** Audit logs *)

(** getAuditLogs returns at most 1000 logs, newest first, each of them
    stored; when at most 1000 are stored, it returns all of them. *)
Theorem getAuditLogs_spec logs :
  (length (getAuditLogs logs) <= 1000)%nat /\
  Sorted (newest_first audit_ts) (getAuditLogs logs) /\
  (forall a, a ∈ getAuditLogs logs -> exists k, (k, a) ∈ logs) /\
  ((length logs <= 1000)%nat -> getAuditLogs logs ≡ₚ logs.*2).
Proof.
  unfold getAuditLogs. split; [|split; [|split]].
  - rewrite length_take. lia.
  - apply Sorted_take, Sorted_merge_sort, _.
  - intros a Ha. apply elem_of_take in Ha as (i & Hi & _).
    apply list_elem_of_lookup_2 in Hi.
    rewrite (merge_sort_Permutation _ _) in Hi.
    apply list_elem_of_fmap in Hi as [[k a'] [-> Hin]]. by exists k.
  - intros Hlen. rewrite take_ge.
    + apply merge_sort_Permutation.
    + rewrite (Permutation_length (merge_sort_Permutation _ _)), length_fmap. lia.
Qed.

(** A log just recorded by createAuditLog is returned by getAuditLogs as
    long as fewer than 1000 logs were stored before it. *)
Theorem createAuditLog_listed newId now log logs :
  (length logs < 1000)%nat ->
  fst (createAuditLog newId now log logs) ∈ getAuditLogs (snd (createAuditLog newId now log logs)).
Proof.
  intros Hlen. unfold createAuditLog, getAuditLogs; simpl.
  rewrite take_ge.
  - rewrite (merge_sort_Permutation _ _). apply list_elem_of_fmap.
    eexists; split; [|apply audit_set_elem]. reflexivity.
  - rewrite (Permutation_length (merge_sort_Permutation _ _)), length_fmap.
    pose proof (audit_set_length newId
      (AuditLog.mk newId (InsertAuditLog.userId log) (InsertAuditLog.action log)
         (InsertAuditLog.entityType log) (InsertAuditLog.entityId log)
         (InsertAuditLog.changes log) (InsertAuditLog.ipAddress log)
         (InsertAuditLog.userAgent log) (Some now)) logs). lia.
Qed.

Lemma createAuditLog_listed_witness :
  (length ([] : AuditLogs) < 1000)%nat /\
  fst (createAuditLog "a1" 1 (InsertAuditLog.mk "u" "SIGN" "REQUISITION" "r1" None None None) []) ∈
    getAuditLogs (snd (createAuditLog "a1" 1 (InsertAuditLog.mk "u" "SIGN" "REQUISITION" "r1" None None None) [])).
Proof. split; [simpl; lia|]. apply createAuditLog_listed. simpl; lia. Defined.

(** *** Signing twice *)

(** A requisition is signed at most once: after a successful
    signRequisition, signing it again (by anyone, on any device) fails and
    leaves the store unchanged, so its stock is taken out only once. *)
Theorem signRequisition_once id dev ip signer now mvid s dev' ip' signer' now' mvid' :
  (exists r, fst (signRequisition id dev ip signer now mvid s) = inr r) ->
  exists e, signRequisition id dev' ip' signer' now' mvid' (snd (signRequisition id dev ip signer now mvid s)) =
            (inl e, snd (signRequisition id dev ip signer now mvid s)).
Proof.
  intros [r Hr]. unfold signRequisition in Hr |- *.
  destruct (requisitions s !! id) as [q|] eqn:Hq; [|discriminate].
  destruct (signer_mismatch signer _); [discriminate|].
  destruct (decide (Requisition.status q = ASSINADA)); [discriminate|].
  destruct (createStockMovement _ _ _ _) as [x s2] eqn:Hc. simpl.
  assert (Hreq : requisitions s2 !! id =
    Some (Requisition.mk (Requisition.id q) (Requisition.employeeId q) (Requisition.materialId q)
            (Requisition.quantity q) (Requisition.observation q) ASSINADA (Requisition.createdById q)
            (Some now) dev ip (Requisition.createdAt q) (Some now))).
  { change s2 with (snd (x, s2)). rewrite <- Hc, createStockMovement_requisitions. simpl.
    apply lookup_insert_eq. }
  rewrite Hreq. simpl.
  destruct (signer_mismatch signer' _); [by eexists|].
  by eexists.
Qed.

Lemma signRequisition_once_witness :
  (exists r, fst (signRequisition "r1" None None (Some "alice") 1 "x" (store_with (requisition_of PENDENTE))) = inr r) /\
  exists e, signRequisition "r1" None None None 2 "y"
              (snd (signRequisition "r1" None None (Some "alice") 1 "x" (store_with (requisition_of PENDENTE)))) =
            (inl e, snd (signRequisition "r1" None None (Some "alice") 1 "x" (store_with (requisition_of PENDENTE)))).
Proof.
  assert (H : exists r, fst (signRequisition "r1" None None (Some "alice") 1 "x" (store_with (requisition_of PENDENTE))) = inr r)
    by (eexists; vm_compute; reflexivity).
  split; [exact H|]. apply signRequisition_once. exact H.
Defined.

(** ** Further properties of the user store and of the employee routes *)

(** *** Helper lemmas *)

Lemma str_app_cons c (v w : string) : String c v +:+ w = String c (v +:+ w).
Proof. reflexivity. Qed.

Lemma str_nil_app (w : string) : "" +:+ w = w.
Proof. reflexivity. Qed.

Lemma str_app_nil (v : string) : v +:+ "" = v.
Proof. induction v as [|c v IH]; [done|]. by rewrite str_app_cons, IH. Qed.

Lemma str_app_assoc (a b c : string) : (a +:+ b) +:+ c = a +:+ (b +:+ c).
Proof. induction a as [|x a IH]; [done|]. by rewrite !str_app_cons, IH. Qed.

Lemma split_colon_app v rest cur :
  Ascii.ascii_of_nat 58 ∉ String.list_ascii_of_string v ->
  EmployeeRoutes.split_colon_acc (v +:+ rest) cur = EmployeeRoutes.split_colon_acc rest (cur +:+ v).
Proof.
  revert cur. induction v as [|c v IH]; intros cur Hv.
  - by rewrite str_nil_app, str_app_nil.
  - simpl in Hv. apply not_elem_of_cons in Hv as [Hc Hv].
    rewrite str_app_cons. simpl.
    destruct (Ascii.eqb c _) eqn:E.
    { apply Ascii.eqb_eq in E. subst c. by contradict Hc. }
    rewrite IH by exact Hv. by rewrite str_app_assoc, str_app_cons, str_nil_app.
Qed.

Lemma verifyPassword_hash scrypt_hex salt password password' :
  salt <> "" -> Ascii.ascii_of_nat 58 ∉ String.list_ascii_of_string salt ->
  scrypt_hex password salt <> "" ->
  Ascii.ascii_of_nat 58 ∉ String.list_ascii_of_string (scrypt_hex password salt) ->
  EmployeeRoutes.verifyPassword scrypt_hex password' (EmployeeRoutes.hashPassword scrypt_hex salt password) =
  String.eqb (scrypt_hex password salt) (scrypt_hex password' salt).
Proof.
  intros Hs Hsc Hk Hkc.
  unfold EmployeeRoutes.verifyPassword, EmployeeRoutes.hashPassword.
  rewrite split_colon_app by exact Hsc. rewrite str_nil_app, str_app_cons, str_nil_app. simpl.
  assert (Hkey : EmployeeRoutes.split_colon_acc (scrypt_hex password salt) "" = [scrypt_hex password salt]).
  { rewrite <- (str_app_nil (scrypt_hex password salt)) at 1.
    rewrite split_colon_app by exact Hkc. reflexivity. }
  rewrite Hkey. simpl.
  apply String.eqb_neq in Hs, Hk. by rewrite Hs, Hk.
Qed.



Lemma map_get_set_eq k v m :
  EmployeeRoutes.map_get k (EmployeeRoutes.map_set k v m) = Some v.
Proof.
  induction m as [|[k' v'] m IH]; simpl; [by rewrite String.eqb_refl|].
  destruct (String.eqb_spec k' k); simpl.
  - by rewrite String.eqb_refl.
  - apply String.eqb_neq in n. by rewrite n.
Qed.

Lemma map_get_set_ne k k' v m :
  k' <> k ->
  EmployeeRoutes.map_get k' (EmployeeRoutes.map_set k v m) = EmployeeRoutes.map_get k' m.
Proof.
  intros Hne. induction m as [|[k0 v0] m IH]; simpl.
  - destruct (String.eqb_spec k k'); [congruence|done].
  - destruct (String.eqb_spec k0 k) as [->|Hk0]; simpl.
    + destruct (String.eqb_spec k k'); [congruence|done].
    + by rewrite IH.
Qed.

Lemma map_set_length k v m :
  length (EmployeeRoutes.map_set k v m) =
  (length m + match EmployeeRoutes.map_get k m with Some _ => 0 | None => 1 end)%nat.
Proof.
  induction m as [|[k' v'] m IH]; simpl; [done|].
  destruct (String.eqb k' k); simpl; [lia|]. rewrite IH. lia.
Qed.




Lemma employeeOnly_inr session users u :
  employeeOnly session users = inr u ->
  exists e, session = Some e /\ e <> "" /\ EmployeeRoutes.getUser e users = Some u /\
            User.role u = FUNCIONARIO.
Proof.
  unfold employeeOnly. destruct session as [e|]; [|discriminate].
  destruct (String.eqb_spec e "") as [|Hne]; [discriminate|].
  destruct (EmployeeRoutes.getUser e users) as [v|] eqn:Hv; [|discriminate].
  destruct (decide (User.role v = FUNCIONARIO)); [|discriminate].
  intros [= <-]. by exists e.
Qed.

Lemma employeeOnly_inl session users st msg session' :
  employeeOnly session users = inl (st, msg, session') ->
  (st = 401 /\ session' = session) \/ (st = 403 /\ session' = None).
Proof.
  unfold employeeOnly. destruct session as [e|]; [|intros [= <- <- <-]; by left].
  destruct (String.eqb e ""); [intros [= <- <- <-]; by left|].
  destruct (EmployeeRoutes.getUser e users) as [v|]; [|intros [= <- <- <-]; by right].
  destruct (decide _); [discriminate|]. intros [= <- <- <-]; by right.
Qed.

(** *** Password hashing *)

(** A hash made by hashPassword from a non-empty salt and a non-empty key
    without ':' (a hex salt and a hex scrypt key) accepts exactly the
    passwords whose scrypt key under that salt is the original one; in
    particular it accepts the original password. *)
Theorem verifyPassword_hashPassword scrypt_hex salt password password' :
  salt <> "" -> Ascii.ascii_of_nat 58 ∉ String.list_ascii_of_string salt ->
  scrypt_hex password salt <> "" ->
  Ascii.ascii_of_nat 58 ∉ String.list_ascii_of_string (scrypt_hex password salt) ->
  EmployeeRoutes.verifyPassword scrypt_hex password' (EmployeeRoutes.hashPassword scrypt_hex salt password) =
  String.eqb (scrypt_hex password salt) (scrypt_hex password' salt).
Proof. apply verifyPassword_hash. Qed.

Lemma verifyPassword_hashPassword_witness :
  "0a1b" <> "" /\ (Ascii.ascii_of_nat 58 ∉ String.list_ascii_of_string "0a1b") /\
  ((fun p s : string => p) "secret1" "0a1b") <> "" /\
  (Ascii.ascii_of_nat 58 ∉ String.list_ascii_of_string ((fun p s : string => p) "secret1" "0a1b")) /\
  EmployeeRoutes.verifyPassword (fun p s => p) "wrong" (EmployeeRoutes.hashPassword (fun p s => p) "0a1b" "secret1") =
  String.eqb "secret1" "wrong".
Proof.
  assert (H1 : "0a1b" <> "") by discriminate.
  assert (H2 : Ascii.ascii_of_nat 58 ∉ String.list_ascii_of_string "0a1b")
    by (apply (bool_decide_unpack _); vm_compute; exact I).
  assert (H3 : ((fun p s : string => p) "secret1" "0a1b") <> "") by discriminate.
  assert (H4 : Ascii.ascii_of_nat 58 ∉ String.list_ascii_of_string ((fun p s : string => p) "secret1" "0a1b"))
    by (apply (bool_decide_unpack _); vm_compute; exact I).
  split; [exact H1|split; [exact H2|split; [exact H3|split; [exact H4|]]]].
  exact (verifyPassword_hashPassword (fun p s => p) "0a1b" "secret1" "wrong" H1 H2 H3 H4).
Defined.

(** *** The user store *)

(** upsertUser stores the user it returns under its id, leaves every other
    id as it was, and adds an entry only when the id was not stored yet. *)
Theorem upsertUser_getUser id email firstName lastName passwordHash role now users :
  EmployeeRoutes.getUser id (snd (EmployeeRoutes.upsertUser id email firstName lastName passwordHash role now users)) =
    Some (fst (EmployeeRoutes.upsertUser id email firstName lastName passwordHash role now users)) /\
  (forall k, k <> id ->
     EmployeeRoutes.getUser k (snd (EmployeeRoutes.upsertUser id email firstName lastName passwordHash role now users)) =
     EmployeeRoutes.getUser k users) /\
  length (snd (EmployeeRoutes.upsertUser id email firstName lastName passwordHash role now users)) =
    (length users + match EmployeeRoutes.getUser id users with Some _ => 0 | None => 1 end)%nat.
Proof.
  unfold EmployeeRoutes.upsertUser, EmployeeRoutes.getUser; simpl.
  split; [apply map_get_set_eq|split].
  - intros k Hk. by apply map_get_set_ne.
  - apply map_set_length.
Qed.

(** *** Registration and login *)





(** *** Employee session *)

(** The employeeOnly middleware answers exactly as [GET /api/employee/me]:
    when it refuses, /me gives the same status, message and session; when
    it lets the request through, /me answers 200 with that user, who is a
    FUNCIONARIO stored under the session's non-empty id. *)
Theorem employeeOnly_agrees_with_me session users :
  match employeeOnly session users with
  | inl (st, msg, session') =>
      EmployeeRoutes.me session users = (EmployeeRoutes.mkResponse st (message_body msg), session')
  | inr u =>
      EmployeeRoutes.me session users = (EmployeeRoutes.mkResponse 200 (EmployeeRoutes.sanitizeUser u), session) /\
      User.role u = FUNCIONARIO /\
      exists e, session = Some e /\ e <> "" /\ EmployeeRoutes.getUser e users = Some u
  end.
Proof.
  unfold employeeOnly, EmployeeRoutes.me. destruct session as [e|]; [|reflexivity].
  destruct (String.eqb_spec e ""); [reflexivity|].
  destruct (EmployeeRoutes.getUser e users) as [v|] eqn:Hv; [|reflexivity].
  destruct (decide (User.role v = FUNCIONARIO)); [|reflexivity].
  split; [reflexivity|]. split; [done|]. by exists e.
Qed.

(** *** Employee sign route *)

(** When the employee sign route answers 200, the session names an
    employee who owns the requisition, the requisition was not signed
    before and is signed now, and a SIGN audit log for it by that employee
    has been recorded. *)
Theorem employee_sign_route_success session users id ua ip now mvid aid s logs :
  let R := employee_sign_route session users id ua ip now mvid aid s logs in
  sr_status (fst (fst (fst R))) = 200 ->
  exists e r, session = Some e /\ requisitions s !! id = Some r /\
    Requisition.employeeId r = e /\ Requisition.status r <> ASSINADA /\
    option_map Requisition.status (requisitions (snd (fst R)) !! id) = Some ASSINADA /\
    exists k a, (k, a) ∈ snd R /\ AuditLog.userId a = e /\
                AuditLog.action a = "SIGN" /\ AuditLog.entityId a = id.
Proof.
  intros R H. subst R. unfold employee_sign_route in *.
  destruct (employeeOnly session users) as [[[st msg] sess']|u] eqn:Heo.
  { simpl in H. apply employeeOnly_inl in Heo as [[-> _]|[-> _]]; discriminate. }
  destruct (employeeOnly_inr _ _ _ Heo) as (e & -> & Hne & _ & _). simpl in *.
  destruct (signRequisition id ua ip (Some e) now mvid s) as [[err|r'] s'] eqn:Hs.
  { destruct err; simpl in H; discriminate. }
  simpl. unfold signRequisition in Hs.
  destruct (requisitions s !! id) as [r|] eqn:Hr; [|discriminate].
  destruct (signer_mismatch (Some e) (Requisition.employeeId r)) eqn:Hm; [discriminate|].
  destruct (decide (Requisition.status r = ASSINADA)) as [|Hst]; [discriminate|].
  destruct (createStockMovement _ _ _ _) as [x s2] eqn:Hc. injection Hs as <- <-.
  exists e, r. split; [done|]. split; [done|]. split.
  { unfold signer_mismatch, truthy in Hm. apply String.eqb_neq in Hne. rewrite Hne in Hm.
    simpl in Hm. apply negb_false_iff, String.eqb_eq in Hm. exact Hm. }
  split; [exact Hst|]. split.
  { change s2 with (snd (x, s2)). rewrite <- Hc, createStockMovement_requisitions. simpl.
    by rewrite lookup_insert_eq. }
  eexists aid, _. split; [apply audit_set_elem|]. done.
Qed.

Lemma employee_sign_route_success_witness :
  sr_status (fst (fst (fst (employee_sign_route (Some "alice") staff_users "r1" None None 1 "x" "a1"
    (store_with (requisition_of PENDENTE)) [])))) = 200 /\
  exists e r, Some "alice" = Some e /\ requisitions (store_with (requisition_of PENDENTE)) !! "r1" = Some r /\
    Requisition.employeeId r = e /\ Requisition.status r <> ASSINADA /\
    option_map Requisition.status (requisitions (snd (fst (employee_sign_route (Some "alice") staff_users "r1" None None 1 "x" "a1"
      (store_with (requisition_of PENDENTE)) []))) !! "r1") = Some ASSINADA /\
    exists k a, (k, a) ∈ snd (employee_sign_route (Some "alice") staff_users "r1" None None 1 "x" "a1"
      (store_with (requisition_of PENDENTE)) []) /\ AuditLog.userId a = e /\
                AuditLog.action a = "SIGN" /\ AuditLog.entityId a = "r1".
Proof.
  assert (H : sr_status (fst (fst (fst (employee_sign_route (Some "alice") staff_users "r1" None None 1 "x" "a1"
    (store_with (requisition_of PENDENTE)) [])))) = 200) by (vm_compute; reflexivity).
  split; [exact H|]. exact (employee_sign_route_success _ _ _ _ _ _ _ _ _ _ H).
Defined.

(** An employee cannot sign another employee's requisition through the
    employee route: it answers 403 and changes neither the store nor the
    audit logs. *)
Theorem employee_sign_route_other_employee session users id ua ip now mvid aid s logs e u r :
  session = Some e -> e <> "" -> EmployeeRoutes.getUser e users = Some u ->
  User.role u = FUNCIONARIO -> requisitions s !! id = Some r -> Requisition.employeeId r <> e ->
  employee_sign_route session users id ua ip now mvid aid s logs =
    (mkSignResponse 403 (BodyMessage "Você não tem permissão para assinar esta requisição"), session, s, logs).
Proof.
  intros -> Hne Hu Hrole Hr Hown. unfold employee_sign_route, employeeOnly.
  apply String.eqb_neq in Hne. rewrite Hne, Hu. rewrite decide_True by exact Hrole. simpl.
  unfold signRequisition. rewrite Hr.
  assert (Hm : signer_mismatch (Some e) (Requisition.employeeId r) = true).
  { unfold signer_mismatch, truthy. rewrite Hne. simpl.
    apply String.eqb_neq in Hown. by rewrite Hown. }
  by rewrite Hm.
Qed.

Lemma employee_sign_route_other_employee_witness :
  Some "bob" = Some "bob" /\ "bob" <> "" /\
  EmployeeRoutes.getUser "bob" staff_users =
    Some (User.mk "bob" (Some "bob@example.com") (Some "Bob") None None None FUNCIONARIO (Some 0) (Some 0)) /\
  User.role (User.mk "bob" (Some "bob@example.com") (Some "Bob") None None None FUNCIONARIO (Some 0) (Some 0)) = FUNCIONARIO /\
  requisitions (store_with (requisition_of PENDENTE)) !! "r1" = Some (requisition_of PENDENTE) /\
  Requisition.employeeId (requisition_of PENDENTE) <> "bob" /\
  employee_sign_route (Some "bob") staff_users "r1" None None 1 "x" "a1" (store_with (requisition_of PENDENTE)) [] =
    (mkSignResponse 403 (BodyMessage "Você não tem permissão para assinar esta requisição"),
     Some "bob", store_with (requisition_of PENDENTE), []).
Proof.
  assert (H2 : "bob" <> "") by discriminate.
  assert (H3 : EmployeeRoutes.getUser "bob" staff_users =
    Some (User.mk "bob" (Some "bob@example.com") (Some "Bob") None None None FUNCIONARIO (Some 0) (Some 0)))
    by reflexivity.
  assert (H5 : requisitions (store_with (requisition_of PENDENTE)) !! "r1" = Some (requisition_of PENDENTE))
    by (vm_compute; reflexivity).
  assert (H6 : Requisition.employeeId (requisition_of PENDENTE) <> "bob") by discriminate.
  split; [reflexivity|split; [exact H2|split; [exact H3|split; [reflexivity|split; [exact H5|split; [exact H6|]]]]]].
  exact (employee_sign_route_other_employee _ _ _ _ _ _ _ _ _ _ "bob" _ _ eq_refl H2 H3 eq_refl H5 H6).
Defined.

(** Without a session naming a stored FUNCIONARIO under a non-empty id, the
    employee sign route answers 401 or 403 (clearing the session on 403)
    and changes neither the store nor the audit logs. *)
Theorem employee_sign_route_refused session users id ua ip now mvid aid s logs :
  ~ (exists e u, session = Some e /\ e <> "" /\ EmployeeRoutes.getUser e users = Some u /\
                 User.role u = FUNCIONARIO) ->
  let R := employee_sign_route session users id ua ip now mvid aid s logs in
  (sr_status (fst (fst (fst R))) = 401 \/
   (sr_status (fst (fst (fst R))) = 403 /\ snd (fst (fst R)) = None)) /\
  snd (fst R) = s /\ snd R = logs.
Proof.
  intros Hno R. subst R. unfold employee_sign_route.
  destruct (employeeOnly session users) as [[[st msg] sess']|u] eqn:Heo.
  - simpl. apply employeeOnly_inl in Heo as [[-> _]|[-> ->]]; (split; [|done]); [by left|by right].
  - exfalso. apply Hno. destruct (employeeOnly_inr _ _ _ Heo) as (e & He & Hne & Hu & Hr).
    by exists e, u.
Qed.

Lemma employee_sign_route_refused_witness :
  ~ (exists e u, Some "root" = Some e /\ e <> "" /\ EmployeeRoutes.getUser e staff_users = Some u /\
                 User.role u = FUNCIONARIO) /\
  (sr_status (fst (fst (fst (employee_sign_route (Some "root") staff_users "r1" None None 1 "x" "a1"
      (store_with (requisition_of PENDENTE)) [])))) = 401 \/
   (sr_status (fst (fst (fst (employee_sign_route (Some "root") staff_users "r1" None None 1 "x" "a1"
      (store_with (requisition_of PENDENTE)) [])))) = 403 /\
    snd (fst (fst (employee_sign_route (Some "root") staff_users "r1" None None 1 "x" "a1"
      (store_with (requisition_of PENDENTE)) []))) = None)) /\
  snd (fst (employee_sign_route (Some "root") staff_users "r1" None None 1 "x" "a1"
      (store_with (requisition_of PENDENTE)) [])) = store_with (requisition_of PENDENTE) /\
  snd (employee_sign_route (Some "root") staff_users "r1" None None 1 "x" "a1"
      (store_with (requisition_of PENDENTE)) []) = [].
Proof.
  assert (H : ~ (exists e u, Some "root" = Some e /\ e <> "" /\ EmployeeRoutes.getUser e staff_users = Some u /\
                 User.role u = FUNCIONARIO)).
  { intros (e & u & He & _ & Hu & Hr). injection He as <-. vm_compute in Hu.
    injection Hu as <-. discriminate Hr. }
  split; [exact H|]. exact (employee_sign_route_refused _ _ _ _ _ _ _ _ _ _ H).
Defined.

(** *** Admin routes *)

(** [GET /api/audit-logs] answers 200 with getAuditLogs exactly when the
    session's user is a stored ADMIN, and 403 "Access denied" otherwise. *)
Theorem audit_logs_route_admin_only sub users logs :
  (fst (audit_logs_route sub users logs) = 200 <->
     exists u, EmployeeRoutes.getUser sub users = Some u /\ User.role u = ADMIN) /\
  (fst (audit_logs_route sub users logs) = 200 -> snd (audit_logs_route sub users logs) = inr (getAuditLogs logs)) /\
  (fst (audit_logs_route sub users logs) <> 200 -> audit_logs_route sub users logs = (403, inl "Access denied")).
Proof.
  unfold audit_logs_route.
  destruct (EmployeeRoutes.getUser sub users) as [u|].
  - destruct (decide (User.role u = ADMIN)) as [Ha|Ha]; simpl.
    + split; [|done]. split; [intros _; by exists u|done].
    + split; [|split; [discriminate|done]]. split; [discriminate|].
      intros (v & [= <-] & Hv). contradiction.
  - simpl. split; [|split; [discriminate|done]]. split; [discriminate|].
    intros (v & Hv & _). discriminate.
Qed.

(** [GET /api/requisitions]: a stored FUNCIONARIO with a non-empty id gets
    exactly their own requisitions; a user who is not a stored FUNCIONARIO
    gets every requisition. *)
Theorem requisitions_route_spec sub users s :
  (forall u, EmployeeRoutes.getUser sub users = Some u -> User.role u = FUNCIONARIO -> sub <> "" ->
     forall r, r ∈ requisitions_route sub users s <->
               (exists k, requisitions s !! k = Some r) /\ Requisition.employeeId r = sub) /\
  ((forall u, EmployeeRoutes.getUser sub users = Some u -> User.role u <> FUNCIONARIO) ->
     forall r, r ∈ requisitions_route sub users s <-> exists k, requisitions s !! k = Some r).
Proof.
  unfold requisitions_route. split.
  - intros u Hu Hr Hne r. rewrite Hu, decide_True by exact Hr.
    rewrite getRequisitions_elem. simpl. apply String.eqb_neq in Hne. rewrite Hne. naive_solver.
  - intros Hnot r. destruct (EmployeeRoutes.getUser sub users) as [u|] eqn:Hu.
    + rewrite decide_False by (by apply Hnot). rewrite getRequisitions_elem. naive_solver.
    + rewrite getRequisitions_elem. naive_solver.
Qed.

(** *** Requisitions with details *)

(** getEmployeeRequisitionsWithDetails returns one entry per requisition of
    the (non-empty) employee, in the order of getRequisitions; when every
    material is stored under its own id, each entry's material summary has
    the id of the requisition's material, whether the material is stored or
    replaced by the placeholder. *)
Theorem getEmployeeRequisitionsWithDetails_spec employeeId users s :
  employeeId <> "" -> materials_keyed s ->
  map rd_requisition (getEmployeeRequisitionsWithDetails employeeId users s) =
    getRequisitions (Some employeeId) s /\
  forall d, d ∈ getEmployeeRequisitionsWithDetails employeeId users s ->
    Requisition.employeeId (rd_requisition d) = employeeId /\
    ms_id (rd_material d) = Requisition.materialId (rd_requisition d) /\
    (materials s !! Requisition.materialId (rd_requisition d) = None ->
       rd_material d = mkMaterialSummary (Requisition.materialId (rd_requisition d)) "Material" "" "").
Proof.
  intros Hne Hk. unfold getEmployeeRequisitionsWithDetails. split.
  - rewrite map_map. simpl. apply map_id.
  - intros d Hd. apply list_elem_of_fmap in Hd as (r & -> & Hr).
    apply getRequisitions_elem in Hr as [_ Hr]. simpl.
    split; [apply Hr; simpl; apply String.eqb_neq in Hne; by rewrite Hne|].
    destruct (materials s !! Requisition.materialId r) as [m|] eqn:Hm; simpl.
    + split; [by apply Hk|discriminate].
    + done.
Qed.

Lemma getEmployeeRequisitionsWithDetails_spec_witness :
  "alice" <> "" /\ materials_keyed (store_with (requisition_of PENDENTE)) /\
  map rd_requisition (getEmployeeRequisitionsWithDetails "alice" staff_users (store_with (requisition_of PENDENTE))) =
    getRequisitions (Some "alice") (store_with (requisition_of PENDENTE)).
Proof.
  assert (H1 : "alice" <> "") by discriminate.
  assert (H2 : materials_keyed (store_with (requisition_of PENDENTE))).
  { intros k m. unfold store_with, bolt_store, createMaterial. simpl.
    destruct (decide (k = "m1")) as [->|Hne].
    - rewrite lookup_insert_eq. by intros [= <-].
    - rewrite lookup_insert_ne by congruence. by rewrite lookup_empty. }
  split; [exact H1|split; [exact H2|]].
  apply (getEmployeeRequisitionsWithDetails_spec "alice" staff_users _ H1 H2).
Defined.
